(** * OpenGround web client: the story list, trending and blindspots pages

    A shallow embedding of [src/static/app.js] (the story list page, the
    story page and the trending page, which the file holds one after the
    other) and of [src/static/blindspots.js].

    The pages are event driven: a handler runs to its first [await], the
    request it issued stays in flight, and the rest of the handler runs when
    the reply arrives.  A world records the script's variables, the parts of
    the document the script reads and writes, the requests in flight (each
    with the code that waits for it), the requests sent so far, and the
    pending timers. *)

From Stdlib Require Import ZArith QArith Qround List Bool Lia.
From stdpp Require Import base option list strings gmap.
Import ListNotations.

Local Open Scope Z_scope.
Local Open Scope string_scope.
Local Open Scope list_scope.

(** ** Data shared by the pages *)

(** The [bias_bar] object of a story: each share is a JSON number or is
    missing. *)
Record Bar := mkBar {
  bar_left : option Q;
  bar_center : option Q;
  bar_right : option Q;
  bar_unknown : option Q }.

(** A story summary as the server sends it.  A field that the scripts read
    with a default ([x || d], [x?.f()]) may be missing; [kind] is only sent
    for blindspots. *)
Record Item := mkItem {
  story_id : string;
  title : option string;
  coverage : Z;
  lean : option string;
  bias_score : option Q;
  bias_bar : option Bar;
  kind : option string }.

(** What [res.json()] gives: a rejection on malformed text, [null], or a
    value of the endpoint's shape. *)
Inductive Body (A : Type) : Type :=
| Malformed
| JsonNull
| JsonObj (a : A).
Arguments Malformed {A}.
Arguments JsonNull {A}.
Arguments JsonObj {A} a.

(** What [fetch(url)] gives: a rejection (the network failed), or a
    response with its [ok] flag (status 2xx) and its body. *)
Inductive Response (A : Type) : Type :=
| NetFail
| HttpResp (ok : bool) (body : Body A).
Arguments NetFail {A}.
Arguments HttpResp {A} ok body.

(** The errors an [async] fetch function can reject with. *)
Inductive Err : Type :=
| NetworkError          (* fetch() rejected *)
| StatusError           (* the function's own [throw new Error(...)] on !res.ok *)
| ParseError            (* res.json() rejected *)
| TypeError.            (* property read on null *)

(** The outcome of awaiting an [async] function. *)
Inductive Outcome (A : Type) : Type :=
| Throw (e : Err)
| Return (a : A).
Arguments Throw {A} e.
Arguments Return {A} a.

(** [x || d] on a string: the empty string is falsy. *)
Definition str_or (x : option string) (d : string) : string :=
  match x with
  | Some s => if String.eqb s "" then d else s
  | None => d
  end.

(** [x || 0] on an integer. *)
Definition int_or0 (x : option Z) : Z :=
  match x with Some n => n | None => 0 end.

(** [x || []] on an array (an empty array is truthy). *)
Definition list_or {A} (x : option (list A)) (d : list A) : list A :=
  match x with Some l => l | None => d end.

(** ** The story list page (app.js, lines 1-415) *)
Module App.

(** [let state = {...}] *)
Record State := mkState {
  category : string;
  query : string;
  stories : list Item;
  offset : Z;
  limit : Z;
  hasMore : bool;
  loading : bool;
  categories : list string }.

Definition state0 : State :=
  {| category := "All"; query := ""; stories := []; offset := 0; limit := 30;
     hasMore := true; loading := false; categories := [] |}.

(** Shapes of the endpoints' JSON. *)
Record PageData := mkPage {
  d_total : option Z;
  d_items : option (list Item) }.

Record MetaData := mkMeta {
  m_last_updated : option string;
  m_stories : Z;
  m_articles : Z }.

Record CategoriesData := mkCats { c_categories : option (list string) }.

Record RefreshData := mkRefresh {
  r_ok : bool;
  r_added_articles : option Z;
  r_stories : option Z }.

(** *** API (lines 27-66) *)

(** [fetchMeta]: every failure inside the [try] gives the fallback; a [null]
    body is returned as it is. *)
Definition meta_fallback : MetaData :=
  {| m_last_updated := None; m_stories := 0; m_articles := 0 |}.

Definition fetchMeta (r : Response MetaData) : Outcome (option MetaData) :=
  match r with
  | NetFail => Return (Some meta_fallback)
  | HttpResp ok b =>
      if negb ok then Return (Some meta_fallback)
      else match b with
           | Malformed => Return (Some meta_fallback)
           | JsonNull => Return None
           | JsonObj m => Return (Some m)
           end
  end.

(** [fetchCategories]: [data.categories || ['All']]; on a [null] body the
    property read throws inside the [try]. *)
Definition fetchCategories (r : Response CategoriesData) : Outcome (list string) :=
  match r with
  | NetFail => Return ["All"]
  | HttpResp ok b =>
      if negb ok then Return ["All"]
      else match b with
           | Malformed => Return ["All"]
           | JsonNull => Return ["All"]
           | JsonObj d => Return (list_or (c_categories d) ["All"])
           end
  end.

(** [fetchStories]: the part after [await fetch(...)]. *)
Definition stories_fallback : PageData :=
  {| d_total := Some 0; d_items := Some [] |}.

Definition fetchStories (r : Response PageData) : Outcome (option PageData) :=
  match r with
  | NetFail => Return (Some stories_fallback)
  | HttpResp ok b =>
      if negb ok then Return (Some stories_fallback)
      else match b with
           | Malformed => Return (Some stories_fallback)
           | JsonNull => Return None
           | JsonObj d => Return (Some d)
           end
  end.

(** The two awaits at the head of [refreshData]'s [try]:
    [await fetch('/api/refresh', ...)] and [await res.json()]; [res.ok] is
    not looked at. *)
Definition refresh_json (r : Response RefreshData) : Outcome (option RefreshData) :=
  match r with
  | NetFail => Throw NetworkError
  | HttpResp _ Malformed => Throw ParseError
  | HttpResp _ JsonNull => Return None
  | HttpResp _ (JsonObj d) => Return (Some d)
  end.

(** *** The document *)

Inductive Grid : Type :=
| GInitial                    (* the markup the page came with *)
| GSpinner                    (* "Loading stories..." *)
| GNoStories                  (* "No stories found" *)
| GCards (l : list Item)      (* one card per story, in order *)
| GFailed.                    (* "Failed to load", with the Retry button *)

Record Button := mkButton { disabled : bool; textContent : string }.

Inductive Display : Type := DInitial | DBlock | DNone.

(** The texts of [#updatedText] and [#statUpdated]; the relative time is
    that of [formatRelativeTime] (in [Clock]) for the date of [stamp]. *)
Inductive MetaText : Type :=
| MInitial
| MUpdated (stamp : string)   (* "Updated <relative time of stamp>" *)
| MTime (stamp : string)      (* "<relative time of stamp>" *)
| MNotYet                     (* "Not updated yet" *)
| MDash.                      (* the dash *)

Inductive ToastMsg : Type :=
| TAdded (added_articles stories : option Z)
| TRefreshFailed.

Inductive ToastType : Type := TSuccess | TError.

Record Toast := mkToast { toast_id : nat; toast_msg : ToastMsg; toast_type : ToastType }.

(** The elements the script looks up by id; [None] when the page has no
    such element. *)
Record Page := mkPage_ {
  grid : option Grid;
  refreshBtn : option Button;
  more : option Display;
  q : option string;
  cats : option (list (string * bool));   (* #cats as last written: for each button
                                             the name put into its markup and
                                             whether it got the class "active" *)
  statCat : option string;
  statStories : option Z;
  updatedText : option MetaText;
  statUpdated : option MetaText;
  toasts : list Toast }.

(** *** Requests and timers *)

Inductive Request : Type :=
| GetMeta
| GetCategories
| GetStories (cat qry : string) (lim off : Z)
| PostRefresh.

(** Who awaits a call of [loadStories] or [updateMeta]: nobody (the call was
    not awaited), [init], or [refreshData] holding the reply [data]. *)
Inductive Caller : Type :=
| Detached
| InitK
| RefreshK (data : RefreshData).

(** A request in flight, with the suspended function that issued it. *)
Inductive Pending : Type :=
| PCategories                 (* init: await fetchCategories() *)
| PStories (k : Caller)       (* loadStories: await fetchStories(...) *)
| PMeta (k : Caller)          (* updateMeta: await fetchMeta() *)
| PRefresh.                   (* refreshData: await fetch('/api/refresh') *)

Inductive TimerKind : Type :=
| TSearch                     (* the callback of handleSearch *)
| TToastFade (id : nat)       (* showToast, after 3000 ms *)
| TToastRemove (id : nat).    (* showToast, 300 ms later *)

Record Timer := mkTimer { tid : nat; due : nat; tkind : TimerKind }.

Record World := mkWorld {
  state : State;
  page : Page;
  net : list Pending;
  sent : list Request;
  timers : list Timer;
  next_timer : nat;
  searchTimeout : option nat;
  next_toast : nat;
  clock : nat }.

(** Field updates, written out. *)
Definition set_category (v : string) (s : State) : State :=
  {| category := v; query := query s; stories := stories s; offset := offset s;
     limit := limit s; hasMore := hasMore s; loading := loading s;
     categories := categories s |}.
Definition set_query (v : string) (s : State) : State :=
  {| category := category s; query := v; stories := stories s; offset := offset s;
     limit := limit s; hasMore := hasMore s; loading := loading s;
     categories := categories s |}.
Definition set_stories (v : list Item) (s : State) : State :=
  {| category := category s; query := query s; stories := v; offset := offset s;
     limit := limit s; hasMore := hasMore s; loading := loading s;
     categories := categories s |}.
Definition set_offset (v : Z) (s : State) : State :=
  {| category := category s; query := query s; stories := stories s; offset := v;
     limit := limit s; hasMore := hasMore s; loading := loading s;
     categories := categories s |}.
Definition set_hasMore (v : bool) (s : State) : State :=
  {| category := category s; query := query s; stories := stories s; offset := offset s;
     limit := limit s; hasMore := v; loading := loading s;
     categories := categories s |}.
Definition set_loading (v : bool) (s : State) : State :=
  {| category := category s; query := query s; stories := stories s; offset := offset s;
     limit := limit s; hasMore := hasMore s; loading := v;
     categories := categories s |}.
Definition set_categories (v : list string) (s : State) : State :=
  {| category := category s; query := query s; stories := stories s; offset := offset s;
     limit := limit s; hasMore := hasMore s; loading := loading s;
     categories := v |}.

Definition set_grid (v : option Grid) (p : Page) : Page :=
  {| grid := v; refreshBtn := refreshBtn p; more := more p; q := q p; cats := cats p;
     statCat := statCat p; statStories := statStories p;
     updatedText := updatedText p; statUpdated := statUpdated p; toasts := toasts p |}.
Definition set_refreshBtn (v : option Button) (p : Page) : Page :=
  {| grid := grid p; refreshBtn := v; more := more p; q := q p; cats := cats p;
     statCat := statCat p; statStories := statStories p;
     updatedText := updatedText p; statUpdated := statUpdated p; toasts := toasts p |}.
Definition set_more (v : option Display) (p : Page) : Page :=
  {| grid := grid p; refreshBtn := refreshBtn p; more := v; q := q p; cats := cats p;
     statCat := statCat p; statStories := statStories p;
     updatedText := updatedText p; statUpdated := statUpdated p; toasts := toasts p |}.
Definition set_q (v : option string) (p : Page) : Page :=
  {| grid := grid p; refreshBtn := refreshBtn p; more := more p; q := v; cats := cats p;
     statCat := statCat p; statStories := statStories p;
     updatedText := updatedText p; statUpdated := statUpdated p; toasts := toasts p |}.
Definition set_cats (v : option (list (string * bool))) (p : Page) : Page :=
  {| grid := grid p; refreshBtn := refreshBtn p; more := more p; q := q p; cats := v;
     statCat := statCat p; statStories := statStories p;
     updatedText := updatedText p; statUpdated := statUpdated p; toasts := toasts p |}.
Definition set_statCat (v : option string) (p : Page) : Page :=
  {| grid := grid p; refreshBtn := refreshBtn p; more := more p; q := q p; cats := cats p;
     statCat := v; statStories := statStories p;
     updatedText := updatedText p; statUpdated := statUpdated p; toasts := toasts p |}.
Definition set_statStories (v : option Z) (p : Page) : Page :=
  {| grid := grid p; refreshBtn := refreshBtn p; more := more p; q := q p; cats := cats p;
     statCat := statCat p; statStories := v;
     updatedText := updatedText p; statUpdated := statUpdated p; toasts := toasts p |}.
Definition set_metaTexts (u s : option MetaText) (p : Page) : Page :=
  {| grid := grid p; refreshBtn := refreshBtn p; more := more p; q := q p; cats := cats p;
     statCat := statCat p; statStories := statStories p;
     updatedText := u; statUpdated := s; toasts := toasts p |}.
Definition set_toasts (v : list Toast) (p : Page) : Page :=
  {| grid := grid p; refreshBtn := refreshBtn p; more := more p; q := q p; cats := cats p;
     statCat := statCat p; statStories := statStories p;
     updatedText := updatedText p; statUpdated := statUpdated p; toasts := v |}.

Definition with_state (f : State -> State) (w : World) : World :=
  {| state := f (state w); page := page w; net := net w; sent := sent w;
     timers := timers w; next_timer := next_timer w;
     searchTimeout := searchTimeout w; next_toast := next_toast w; clock := clock w |}.
Definition with_page (f : Page -> Page) (w : World) : World :=
  {| state := state w; page := f (page w); net := net w; sent := sent w;
     timers := timers w; next_timer := next_timer w;
     searchTimeout := searchTimeout w; next_toast := next_toast w; clock := clock w |}.
Definition with_net (v : list Pending) (w : World) : World :=
  {| state := state w; page := page w; net := v; sent := sent w;
     timers := timers w; next_timer := next_timer w;
     searchTimeout := searchTimeout w; next_toast := next_toast w; clock := clock w |}.
Definition with_timers (v : list Timer) (w : World) : World :=
  {| state := state w; page := page w; net := net w; sent := sent w;
     timers := v; next_timer := next_timer w;
     searchTimeout := searchTimeout w; next_toast := next_toast w; clock := clock w |}.
Definition with_clock (v : nat) (w : World) : World :=
  {| state := state w; page := page w; net := net w; sent := sent w;
     timers := timers w; next_timer := next_timer w;
     searchTimeout := searchTimeout w; next_toast := next_toast w; clock := v |}.

(** [fetch(url)]: the request leaves, and the caller is suspended on it. *)
Definition fetch (rq : Request) (p : Pending) (w : World) : World :=
  {| state := state w; page := page w; net := net w ++ [p]; sent := sent w ++ [rq];
     timers := timers w; next_timer := next_timer w;
     searchTimeout := searchTimeout w; next_toast := next_toast w; clock := clock w |}.

(** [setTimeout(cb, ms)]: a fresh id, kept in [searchTimeout] when [keep]. *)
Definition setTimeout (k : TimerKind) (ms : nat) (keep : bool) (w : World) : World :=
  {| state := state w; page := page w; net := net w; sent := sent w;
     timers := timers w ++ [ {| tid := next_timer w; due := (clock w + ms)%nat; tkind := k |} ];
     next_timer := S (next_timer w);
     searchTimeout := if keep then Some (next_timer w) else searchTimeout w;
     next_toast := next_toast w; clock := clock w |}.

(** [clearTimeout(id)]; [undefined] and ids that already fired are ignored. *)
Definition clearTimeout (id : option nat) (w : World) : World :=
  with_timers
    match id with
    | None => timers w
    | Some i => List.filter (fun t => negb (Nat.eqb (tid t) i)) (timers w)
    end w.

(** *** showToast (lines 321-349) *)
Definition showToast (m : ToastMsg) (ty : ToastType) (w : World) : World :=
  let t := {| toast_id := next_toast w; toast_msg := m; toast_type := ty |} in
  let w1 := with_page (set_toasts [t]) w in
  let w2 := {| state := state w1; page := page w1; net := net w1; sent := sent w1;
               timers := timers w1; next_timer := next_timer w1;
               searchTimeout := searchTimeout w1; next_toast := S (next_toast w1);
               clock := clock w1 |} in
  setTimeout (TToastFade (toast_id t)) 3000 false w2.

(** [if (el) el.x = v]: the write happens when the page has the element. *)
Definition put {A} (v : A) (el : option A) : option A :=
  option_map (fun _ => v) el.

(** *** Render (lines 97-190, 262-266): each of these writes to the
    document only, and only if it finds its element. *)
Definition renderCategories (w : World) : World :=
  with_page (fun p =>
    set_cats
      (put (List.map (fun c => (c, String.eqb c (category (state w))))
                     (categories (state w)))
           (cats p)) p) w.

Definition renderStories (w : World) : World :=
  with_page (fun p =>
    set_grid
      (put (if (length (stories (state w)) =? 0)%nat && negb (loading (state w))
            then GNoStories
            else GCards (stories (state w)))
           (grid p)) p) w.

Definition updateStatCategory (w : World) : World :=
  with_page (fun p => set_statCat (put (category (state w)) (statCat p)) p) w.

Definition updateStatStories (total : Z) (w : World) : World :=
  with_page (fun p => set_statStories (put total (statStories p)) p) w.

Definition updateMoreButton (w : World) : World :=
  with_page (fun p =>
    set_more (put (if hasMore (state w) then DBlock else DNone) (more p)) p) w.

(** *** updateMeta (lines 192-210) *)

(** Up to [await fetchMeta()]. *)
Definition updateMeta (k : Caller) (w : World) : World :=
  fetch GetMeta (PMeta k) w.

(** The [finally] block of [refreshData]; [btn] is the element found at the
    start of the call. *)
Definition refresh_finally (w : World) : World :=
  with_page (fun p =>
    set_refreshBtn
      (put {| disabled := false; textContent := "Refresh" |} (refreshBtn p)) p) w.

(** The [catch] block of [refreshData], then its [finally]. *)
Definition refresh_catch (w : World) : World :=
  refresh_finally (showToast TRefreshFailed TError w).

(** What the awaiting caller does once [updateMeta] has returned. *)
Definition after_meta (k : Caller) (w : World) : World :=
  match k with
  | Detached => w
  | InitK => w
  | RefreshK data =>
      refresh_finally
        (showToast (TAdded (r_added_articles data) (r_stories data)) TSuccess w)
  end.

(** From the reply of [/api/meta] on; a [null] body makes
    [meta.last_updated] throw, which [updateMeta] catches. *)
Definition updateMeta_resume (k : Caller) (r : Response MetaData) (w : World) : World :=
  let w1 :=
    with_page (fun p =>
      match fetchMeta r with
      | Return (Some meta) =>
          let t := match m_last_updated meta with
                   | Some s => if String.eqb s "" then (MNotYet, MDash)
                               else (MUpdated s, MTime s)
                   | None => (MNotYet, MDash)
                   end in
          set_metaTexts (put (fst t) (updatedText p)) (put (snd t) (statUpdated p)) p
      | Return None => p
      | Throw _ => p
      end) w in
  after_meta k w1.

(** *** loadStories (lines 212-260) *)

(** What the awaiting caller does once [loadStories] has returned:
    [init] and [refreshData] go on to [await updateMeta()]. *)
Definition after_load (k : Caller) (w : World) : World :=
  match k with
  | Detached => w
  | InitK => updateMeta InitK w
  | RefreshK data => updateMeta (RefreshK data) w
  end.

(** [fetchStories(state.category, state.query, state.limit, state.offset)] up
    to its [await fetch(...)]: the request it sends, with [category || 'All']
    and [query || '']. *)
Definition stories_request (s : State) : Request :=
  GetStories (str_or (Some (category s)) "All") (str_or (Some (query s)) "")
             (limit s) (offset s).

(** Up to [await fetchStories(...)]; the request carries the state read at
    this moment ([category || 'All'], [query || '']). *)
Definition loadStories (k : Caller) (w : World) : World :=
  if loading (state w) then after_load k w
  else
    let w1 := with_state (set_loading true) w in
    let w2 := with_page (fun p =>
                set_grid (if (offset (state w1) =? 0)%Z
                          then put GSpinner (grid p) else grid p) p) w1 in
    fetch (stories_request (state w2)) (PStories k) w2.

(** The [catch] block of [loadStories]. *)
Definition loadStories_catch (w : World) : World :=
  with_page (fun p => set_grid (put GFailed (grid p)) p) w.

(** From the reply on: the rest of the [try], the [catch], the [finally];
    [state.offset] and [state.stories] are read now, not when the request
    left. *)
Definition loadStories_resume (k : Caller) (r : Response PageData) (w : World) : World :=
  let w1 :=
    match fetchStories r with
    | Return (Some data) =>
        let items := list_or (d_items data) [] in
        let wa := with_state (fun s =>
                    set_stories (if (offset s =? 0)%Z then items else stories s ++ items) s) w in
        let wb := with_state (fun s =>
                    set_hasMore (Z.of_nat (length (stories s)) <? int_or0 (d_total data))%Z s) wa in
        updateMoreButton (updateStatStories (int_or0 (d_total data)) (renderStories wb))
    | Return None => loadStories_catch w
    | Throw _ => loadStories_catch w
    end in
  after_load k (with_state (set_loading false) w1).

(** *** The handlers *)

(** [loadMore] (lines 268-271) *)
Definition loadMore (w : World) : World :=
  loadStories Detached (with_state (fun s => set_offset (offset s + limit s) s) w).

(** The click listener of a category button (lines 112-122). *)
Definition categoryClick (newCat : string) (w : World) : World :=
  if String.eqb newCat (category (state w)) then w
  else
    let w1 := with_state (fun s => set_stories [] (set_offset 0 (set_category newCat s))) w in
    updateStatCategory (loadStories Detached (renderCategories w1)).

(** [handleSearch] (lines 274-283) and the callback it schedules, which
    reads the input's value when it runs. *)
Definition handleSearch (w : World) : World :=
  setTimeout TSearch 300 true (clearTimeout (searchTimeout w) w).

Definition searchCallback (w : World) : World :=
  match q (page w) with
  | None => w
  | Some v =>
      loadStories Detached
        (with_state (fun s => set_stories [] (set_offset 0 (set_query v s))) w)
  end.

(** [clearSearch] (lines 285-292) *)
Definition clearSearch (w : World) : World :=
  let w1 := with_page (fun p => set_q (put "" (q p)) p) w in
  loadStories Detached
    (with_state (fun s => set_stories [] (set_offset 0 (set_query "" s))) w1).

(** [refreshData] (lines 68-95): up to [await fetch('/api/refresh', ...)]. *)
Definition refreshData (w : World) : World :=
  match refreshBtn (page w) with
  | None => w
  | Some _ =>
      fetch PostRefresh PRefresh
        (with_page (set_refreshBtn
           (Some {| disabled := true; textContent := "Refreshing..." |})) w)
  end.

(** From the reply of [/api/refresh] on. *)
Definition refreshData_resume (r : Response RefreshData) (w : World) : World :=
  match refresh_json r with
  | Throw _ => refresh_catch w
  | Return None => refresh_catch w
  | Return (Some data) =>
      if r_ok data
      then loadStories (RefreshK data)
             (with_state (fun s => set_stories [] (set_offset 0 s)) w)
      else refresh_catch w
  end.

(** [init] (lines 352-382): up to [await fetchCategories()], and from its
    reply on.  The listeners it registers are the events of [step] below;
    [initTheme] is in [Theme]. *)
Definition init (w : World) : World :=
  fetch GetCategories PCategories w.

Definition init_resume (r : Response CategoriesData) (w : World) : World :=
  match fetchCategories r with
  | Throw _ => w
  | Return l => loadStories InitK (renderCategories (with_state (set_categories l) w))
  end.

(** The timers' callbacks. *)
Definition fire (k : TimerKind) (w : World) : World :=
  match k with
  | TSearch => searchCallback w
  | TToastFade id => setTimeout (TToastRemove id) 300 false w
  | TToastRemove id =>
      with_page (fun p =>
        set_toasts (List.filter (fun t => negb (Nat.eqb (toast_id t) id)) (toasts p)) p) w
  end.

(** *** The event loop *)

Inductive Reply : Type :=
| RCategories (r : Response CategoriesData)
| RStories (r : Response PageData)
| RMeta (r : Response MetaData)
| RRefresh (r : Response RefreshData).

Inductive Event : Type :=
| ETick (ms : nat)                (* time passes *)
| EKey (text : string)            (* input event on #q, its value now [text] *)
| EFire (id : nat)                (* the timer [id] runs *)
| EClear                          (* click on #clear *)
| ECategory (c : string)          (* click on a category button whose
                                     [dataset.cat] reads [c] *)
| EMore                           (* click on #more *)
| ERefresh                        (* click on #refreshBtn *)
| ERetry                          (* click on Retry in the failed grid *)
| EReply (n : nat) (r : Reply).   (* the n-th request in flight is answered *)

(** The category buttons are written as markup, with each name put as it
    is into [data-cat="..."] and into the label (lines 102-109), and the
    listener reads [el.dataset.cat] back from the element the browser built
    (line 113).  A name without the characters that mean something to the
    HTML parser ([&], [<], [>], the double quote, and NUL and CR, which the
    parser replaces) comes back as it was written.  Any other name is
    decoded by the parser (character references, an attribute or an element
    that ends early), by rules that are not modelled: for a bar that holds
    such a name, every string is taken as a value a click may read. *)
Definition markup_char (a : Ascii.ascii) : bool :=
  let n := Ascii.N_of_ascii a in
  (n =? 38)%N || (n =? 60)%N || (n =? 62)%N || (n =? 34)%N
  || (n =? 0)%N || (n =? 13)%N.

Fixpoint plain (s : string) : bool :=
  match s with
  | EmptyString => true
  | String a s' => negb (markup_char a) && plain s'
  end.

Definition reads (c : string) (l : list (string * bool)) : bool :=
  existsb (fun b => String.eqb (fst b) c || negb (plain (fst b))) l.

Definition find_timer (id : nat) (w : World) : option Timer :=
  List.find (fun t => Nat.eqb (tid t) id) (timers w).

(** The answer to the [n]-th request in flight resumes its function. *)
Definition deliver (n : nat) (r : Reply) (w : World) : option World :=
  match net w !! n with
  | None => None
  | Some p =>
      let w1 := with_net (delete n (net w)) w in
      match p, r with
      | PCategories, RCategories r => Some (init_resume r w1)
      | PStories k, RStories r => Some (loadStories_resume k r w1)
      | PMeta k, RMeta r => Some (updateMeta_resume k r w1)
      | PRefresh, RRefresh r => Some (refreshData_resume r w1)
      | _, _ => None
      end
  end.

(** One turn of the event loop; [None] when the event cannot happen in this
    world (no such element, a hidden or disabled button, a timer not due).
    The category buttons get their listener from [renderCategories]; a bar
    that the document came with has none, and a click on it does nothing.
    [step] lets the listener run for such a bar too: this adds runs, it
    takes none away. *)
Definition step (w : World) (e : Event) : option World :=
  match e with
  | ETick ms => Some (with_clock (clock w + ms)%nat w)
  | EKey text =>
      match q (page w) with
      | Some _ => Some (handleSearch (with_page (set_q (Some text)) w))
      | None => None
      end
  | EFire id =>
      match find_timer id w with
      | Some t =>
          if (due t <=? clock w)%nat
          then Some (fire (tkind t) (clearTimeout (Some id) w))
          else None
      | None => None
      end
  | EClear => Some (clearSearch w)
  | ECategory c =>
      match cats (page w) with
      | Some l => if reads c l then Some (categoryClick c w) else None
      | None => None
      end
  | EMore =>
      match more (page w) with
      | Some DNone | None => None
      | Some _ => Some (loadMore w)
      end
  | ERefresh =>
      match refreshBtn (page w) with
      | Some b => if disabled b then None else Some (refreshData w)
      | None => None
      end
  | ERetry =>
      match grid (page w) with
      | Some GFailed => Some (loadStories Detached w)
      | _ => None
      end
  | EReply n r => deliver n r w
  end.

Fixpoint run (w : World) (es : list Event) : option World :=
  match es with
  | [] => Some w
  | e :: es' => match step w e with
                | Some w' => run w' es'
                | None => None
                end
  end.

(** The world in which the script starts: nothing in flight, no timers; the
    document [p] as the server sent it. *)
Definition fresh (p : Page) : World :=
  {| state := state0; page := p; net := []; sent := []; timers := [];
     next_timer := 0; searchTimeout := None; next_toast := 0; clock := 0 |}.

(** A page as it arrives: the refresh button, if any, is enabled, and there
    are no toasts. *)
Definition arrives (p : Page) : Prop :=
  toasts p = [] /\
  match refreshBtn p with Some b => disabled b = false | None => True end.

(** The worlds the page can be in: [init] has run on a fresh world, then
    events happened. *)
Inductive Reachable : World -> Prop :=
| reach_init p : arrives p -> Reachable (init (fresh p))
| reach_step w e w' : Reachable w -> step w e = Some w' -> Reachable w'.

(** *** What the claims speak of *)

(** The state update of a reply that carries a page, before [finally]. *)
Definition merge_page (data : PageData) (s : State) : State :=
  let l := if (offset s =? 0)%Z then list_or (d_items data) []
           else stories s ++ list_or (d_items data) [] in
  set_hasMore (Z.of_nat (length l) <? int_or0 (d_total data))%Z (set_stories l s).

(** A reply with a well-formed page. *)
Definition page_reply (total : Z) (items : list Item) : Response PageData :=
  HttpResp true (JsonObj {| d_total := Some total; d_items := Some items |}).

(** A request "fails" when the network does, when the status is not 2xx, or
    when the body is not JSON. *)
Definition failed {A} (r : Response A) : bool :=
  match r with
  | NetFail => true
  | HttpResp ok b => negb ok || match b with Malformed => true | _ => false end
  end.

(** The outcomes of the refresh request: the reply says [ok], or anything
    else (no reply, malformed or null body, [ok] false). *)
Definition refresh_ok (r : Response RefreshData) : option RefreshData :=
  match refresh_json r with
  | Return (Some data) => if r_ok data then Some data else None
  | _ => None
  end.

(** The page fetches in flight, and their number. *)
Definition is_load (p : Pending) : bool :=
  match p with PStories _ => true | _ => false end.

Definition loads_in_flight (w : World) : nat :=
  length (List.filter is_load (net w)).

(** [loading] is set exactly while one page fetch is in flight. *)
Definition Balanced (w : World) : Prop :=
  loads_in_flight w = if loading (state w) then 1%nat else 0%nat.

(** The requests on which a call of [refreshData] is suspended. *)
Definition is_refresh (p : Pending) : bool :=
  match p with
  | PRefresh | PStories (RefreshK _) | PMeta (RefreshK _) => true
  | _ => false
  end.

Definition refreshes_in_flight (w : World) : nat :=
  length (List.filter is_refresh (net w)).

Definition awaited_by_refresh (k : Caller) : nat :=
  match k with RefreshK _ => 1%nat | _ => 0%nat end.

Definition btn_disabled (w : World) : bool :=
  match refreshBtn (page w) with
  | Some b => disabled b
  | None => false
  end.

(** The button is disabled exactly while one call of [refreshData] is
    under way. *)
Definition RefreshOK (w : World) : Prop :=
  refreshes_in_flight w = if btn_disabled w then 1%nat else 0%nat.

(** Timer ids are fresh, and a pending search callback is the one whose id
    [searchTimeout] holds. *)
Definition timer_ok (w : World) (t : Timer) : Prop :=
  (tid t < next_timer w)%nat /\
  (tkind t = TSearch -> searchTimeout w = Some (tid t)).

Definition TimersOK (w : World) : Prop := Forall (timer_ok w) (timers w).

(** The pending callbacks of [handleSearch]. *)
Definition search_timers (w : World) : list Timer :=
  List.filter (fun t => match tkind t with TSearch => true | _ => false end) (timers w).

(** The callback scheduled by a keystroke at time [at_]. *)
Definition search_timer (id at_ : nat) : Timer :=
  {| tid := id; due := (at_ + 300)%nat; tkind := TSearch |}.

(** No search callback can run in this world: none that is pending is due. *)
Definition search_cannot_fire (w : World) : Prop :=
  forall id t, find_timer id w = Some t -> tkind t = TSearch ->
               step w (EFire id) = None.

(** The toast that [showToast] puts up in [w], and the timer that starts
    its removal. *)
Definition toast_of (w : World) (m : ToastMsg) (ty : ToastType) : Toast :=
  {| toast_id := next_toast w; toast_msg := m; toast_type := ty |}.

Definition fade_timer (w : World) : Timer :=
  {| tid := next_timer w; due := (clock w + 3000)%nat; tkind := TToastFade (next_toast w) |}.

(** The parts of a world that the page loader leaves alone. *)
Definition timers_of (w : World) : list Timer * nat * option nat :=
  (timers w, next_timer w, searchTimeout w).

Definition refresh_view (w : World) : option Button * list Toast * nat :=
  (refreshBtn (page w), toasts (page w), next_toast w).

(** *** Runs used in the examples *)

Definition story (id : string) : Item :=
  {| story_id := id; title := Some id; coverage := 1; lean := None;
     bias_score := None; bias_bar := None; kind := None |}.

(** A document that has every element the script looks for. *)
Definition page0 : Page :=
  {| grid := Some GInitial;
     refreshBtn := Some {| disabled := false; textContent := "Refresh" |};
     more := Some DInitial; q := Some ""; cats := Some [];
     statCat := Some "All"; statStories := Some 0;
     updatedText := Some MInitial; statUpdated := Some MInitial; toasts := [] |}.

Definition ok_page (total : Z) (items : list Item) : Reply :=
  RStories (page_reply total items).

Definition ok_cats (l : list string) : Reply :=
  RCategories (HttpResp true (JsonObj {| c_categories := Some l |})).

Definition refresh_reply (added total : Z) : Reply :=
  RRefresh (HttpResp true (JsonObj
    {| r_ok := true; r_added_articles := Some added; r_stories := Some total |})).

Definition meta_reply (stamp : string) : Reply :=
  RMeta (HttpResp true (JsonObj
    {| m_last_updated := Some stamp; m_stories := 7; m_articles := 40 |})).

(** The page has started and the categories have arrived: the first page of
    stories is in flight. *)
Definition started : list Event := [EReply 0%nat (ok_cats ["All"; "World"])].

(** A burst of keystrokes: the first one, then each next one after a gap
    during which nothing else happens. *)
Fixpoint keystrokes (first : string) (rest : list (nat * string)) : list Event :=
  match rest with
  | [] => [EKey first]
  | (gap, text) :: rest' => EKey first :: ETick gap :: keystrokes text rest'
  end.

Fixpoint final_text (first : string) (rest : list (nat * string)) : string :=
  match rest with
  | [] => first
  | (_, text) :: rest' => final_text text rest'
  end.

(** The world right after the last keystroke of a burst typed into [w]. *)
Record Typed (w w1 : World) (text : string) (id : nat) : Prop := {
  typed_state : state w1 = state w;
  typed_sent : sent w1 = sent w;
  typed_net : net w1 = net w;
  typed_q : q (page w1) = Some text;
  typed_find : find_timer id w1 = Some (search_timer id (clock w1));
  typed_only : search_timers w1 = [search_timer id (clock w1)];
  typed_ok : TimersOK w1 }.

(** *** Further invariants of the page *)

(** A page request asks for 30 stories from an offset that is a multiple
    of 30. *)
Definition request_ok (r : Request) : Prop :=
  match r with
  | GetStories _ _ lim off => lim = 30%Z /\ (0 <= off)%Z /\ (off mod 30 = 0)%Z
  | _ => True
  end.

Definition Paged (w : World) : Prop :=
  limit (state w) = 30%Z
  /\ (0 <= offset (state w))%Z
  /\ (offset (state w) mod 30 = 0)%Z
  /\ Forall request_ok (sent w).

(** The "load more" button can be clicked (it is there and not hidden)
    only while [hasMore] is true. *)
Definition MoreOK (w : World) : Prop :=
  match more (page w) with
  | Some DNone | None => True
  | Some _ => hasMore (state w) = true
  end.

(** The buttons that [renderCategories] draws for a state. *)
Definition category_buttons (s : State) : list (string * bool) :=
  List.map (fun c => (c, String.eqb c (category s))) (categories s).

(** Once the categories have arrived the buttons are those of the state:
    one per category, the current one marked. *)
Definition CatsOK (w : World) : Prop :=
  In PCategories (net w)
  \/ match cats (page w) with
     | Some l => l = category_buttons (state w)
     | None => True
     end.

(** At most one toast is on the page. *)
Definition OneToast (w : World) : Prop := (length (toasts (page w)) <= 1)%nat.

End App.


(** ** The story page (app.js, lines 415-745) *)
Module Story.

(** [fetchStory] and [fetchTimeline]: a status that is not 2xx is thrown,
    and nothing is caught here. *)
Definition fetchStory {A} (r : Response A) : Outcome (option A) :=
  match r with
  | NetFail => Throw NetworkError
  | HttpResp ok b =>
      if negb ok then Throw StatusError
      else match b with
           | Malformed => Throw ParseError
           | JsonNull => Return None
           | JsonObj d => Return (Some d)
           end
  end.

Definition fetchTimeline {A} (r : Response A) : Outcome (option A) := fetchStory r.

End Story.

(** ** The trending page (app.js, lines 745-965) *)
Module Trending.

Record Topic := mkTopic {
  keyword : option string;
  heat_score : option Q;
  count : Z;
  sources : Z;
  velocity : option Q;
  sample_headlines : option (list string) }.

Record TrendingData := mkTrending {
  t_topics : option (list Topic);
  t_last_updated : option string }.

Inductive Grid : Type :=
| GSpinner                     (* "Analyzing trending topics..." *)
| GNoTopics                    (* "No trending topics detected" *)
| GCards (l : list Topic)
| GFailed.                     (* "Failed to load" *)

(** [let topics], [let loading], and the two elements the script writes,
    which it uses without looking whether they exist. *)
Record State := mkState {
  topics : list Topic;
  loading : bool;
  grid : Grid;
  updatedText : option string }.

(** [fetchTrending]: no [try], no look at [res.ok]. *)
Definition fetchTrending (r : Response TrendingData) : Outcome (option TrendingData) :=
  match r with
  | NetFail => Throw NetworkError
  | HttpResp _ Malformed => Throw ParseError
  | HttpResp _ JsonNull => Return None
  | HttpResp _ (JsonObj d) => Return (Some d)
  end.

Definition renderTrending (s : State) : State :=
  {| topics := topics s; loading := loading s;
     grid := if (length (topics s) =? 0)%nat && negb (loading s)
             then GNoTopics else GCards (topics s);
     updatedText := updatedText s |}.

Definition updateMeta (data : TrendingData) (s : State) : State :=
  {| topics := topics s; loading := loading s; grid := grid s;
     updatedText := match t_last_updated data with
                    | Some stamp => if String.eqb stamp "" then updatedText s
                                    else Some stamp
                    | None => updatedText s
                    end |}.

(** [loadTrending] up to [await fetchTrending()]; [None] when the call is
    dropped. *)
Definition loadTrending (s : State) : option State :=
  if loading s then None
  else Some {| topics := topics s; loading := true; grid := GSpinner;
               updatedText := updatedText s |}.

(** From the reply on: [try], [catch], [finally]. *)
Definition loadTrending_resume (r : Response TrendingData) (s : State) : State :=
  let s1 :=
    match fetchTrending r with
    | Return (Some data) =>
        updateMeta data
          (renderTrending {| topics := list_or (t_topics data) []; loading := loading s;
                             grid := grid s; updatedText := updatedText s |})
    | Return None | Throw _ =>
        {| topics := topics s; loading := loading s; grid := GFailed;
           updatedText := updatedText s |}
    end in
  {| topics := topics s1; loading := false; grid := grid s1;
     updatedText := updatedText s1 |}.

End Trending.

(** ** The blindspots page (blindspots.js) *)
Module Blindspots.

Record BlindspotsData := mkBlindspots {
  b_items : option (list Item);
  b_last_updated : option string }.

Inductive SegType : Type := SLeft | SCenter | SRight | SUnknown.

Inductive Badge : Type := BadgeLeft | BadgeRight.

(** A rendered card: what the template puts in the markup. *)
Record Card := mkCard {
  card_id : string;
  card_badge : Badge;
  card_kind : string;
  card_title : string;
  card_coverage : Z;
  card_lean : string;
  card_score : Q;                      (* shown with two decimals *)
  card_segments : list (SegType * Q) }.

Inductive Grid : Type :=
| GSpinner                     (* "Finding blindspots..." *)
| GNoBlindspots                (* "No blindspots detected" *)
| GCards (l : list Card)
| GFailed.                     (* "Failed to load" *)

(** [let blindspots], [let loading], and the two elements the script
    writes, which it uses without looking whether they exist. *)
Record State := mkState {
  blindspots : list Item;
  loading : bool;
  grid : Grid;
  updatedText : option string }.

(** [fetchBlindspots]: no [try], no look at [res.ok]. *)
Definition fetchBlindspots (r : Response BlindspotsData) : Outcome (option BlindspotsData) :=
  match r with
  | NetFail => Throw NetworkError
  | HttpResp _ Malformed => Throw ParseError
  | HttpResp _ JsonNull => Return None
  | HttpResp _ (JsonObj d) => Return (Some d)
  end.

(** [x || 0] on a number. *)
Definition num_or0 (x : option Q) : Q :=
  match x with Some v => v | None => 0%Q end.

(** [seg.value > 0] *)
Definition positive (v : Q) : bool :=
  match Qlt_le_dec 0 v with left _ => true | right _ => false end.

(** [const bar = item.bias_bar || {}] and the four segments, filtered. *)
Definition segments (item : Item) : list (SegType * Q) :=
  let bar := match bias_bar item with
             | Some b => b
             | None => {| bar_left := None; bar_center := None;
                          bar_right := None; bar_unknown := None |}
             end in
  List.filter (fun seg => positive (snd seg))
    [ (SLeft, num_or0 (bar_left bar)); (SCenter, num_or0 (bar_center bar));
      (SRight, num_or0 (bar_right bar)); (SUnknown, num_or0 (bar_unknown bar)) ].

(** The share of a side in the bias bar of an item, as the template reads
    it: [bar.left || 0] and so on, which is 0 for every side of an item
    without [bias_bar]. *)
Definition share (t : SegType) (item : Item) : Q :=
  match bias_bar item with
  | None => 0%Q
  | Some b => num_or0 match t with
                      | SLeft => bar_left b
                      | SCenter => bar_center b
                      | SRight => bar_right b
                      | SUnknown => bar_unknown b
                      end
  end.

(** [s.includes(t)] *)
Definition includes (s t : string) : bool :=
  match String.index 0 t s with Some _ => true | None => false end.

(** The callback of [blindspots.map]: the read of [item.kind.includes]
    throws when [kind] is missing. *)
Definition renderCard (item : Item) : Outcome Card :=
  let segs := segments item in
  match kind item with
  | None => Throw TypeError
  | Some k =>
      Return {| card_id := story_id item;
                card_badge := if includes k "Left" then BadgeLeft else BadgeRight;
                card_kind := k;
                card_title := match title item with Some t => t | None => "" end;
                card_coverage := coverage item;
                card_lean := str_or (lean item) "Unknown";
                card_score := num_or0 (bias_score item);
                card_segments := segs |}
  end.

(** [Array.prototype.map] with a callback that may throw: the first throw
    ends the loop. *)
Fixpoint renderCards (items : list Item) : Outcome (list Card) :=
  match items with
  | [] => Return []
  | item :: rest =>
      match renderCard item with
      | Throw e => Throw e
      | Return c =>
          match renderCards rest with
          | Throw e => Throw e
          | Return cs => Return (c :: cs)
          end
      end
  end.

(** [renderBlindspots] (lines 46-107): the new content of the grid, or the
    error thrown. *)
Definition renderBlindspots (blindspots : list Item) (loading : bool) : Outcome Grid :=
  if (length blindspots =? 0)%nat && negb loading then Return GNoBlindspots
  else match renderCards blindspots with
       | Throw e => Throw e
       | Return cs => Return (GCards cs)
       end.

Definition updateMeta (data : BlindspotsData) (s : State) : State :=
  {| blindspots := blindspots s; loading := loading s; grid := grid s;
     updatedText := match b_last_updated data with
                    | Some stamp => if String.eqb stamp "" then updatedText s
                                    else Some stamp
                    | None => updatedText s
                    end |}.

(** [loadBlindspots] up to [await fetchBlindspots()]; [None] when the call
    is dropped. *)
Definition loadBlindspots (s : State) : option State :=
  if loading s then None
  else Some {| blindspots := blindspots s; loading := true; grid := GSpinner;
               updatedText := updatedText s |}.

Definition failed_view (s : State) : State :=
  {| blindspots := blindspots s; loading := loading s; grid := GFailed;
     updatedText := updatedText s |}.

(** From the reply on: [try], [catch], [finally].  [blindspots] is assigned
    before [renderBlindspots] runs, so it keeps the new items when the
    rendering throws. *)
Definition loadBlindspots_resume (r : Response BlindspotsData) (s : State) : State :=
  let s1 :=
    match fetchBlindspots r with
    | Return (Some data) =>
        let s0 := {| blindspots := list_or (b_items data) []; loading := loading s;
                     grid := grid s; updatedText := updatedText s |} in
        match renderBlindspots (blindspots s0) (loading s0) with
        | Return g =>
            updateMeta data {| blindspots := blindspots s0; loading := loading s0;
                               grid := g; updatedText := updatedText s0 |}
        | Throw _ => failed_view s0
        end
    | Return None | Throw _ => failed_view s
    end in
  {| blindspots := blindspots s1; loading := false; grid := grid s1;
     updatedText := updatedText s1 |}.

End Blindspots.

(** ** The theme preference

    [localStorage] is a map from keys to strings; [data-theme] is the
    attribute of the document element, [None] before any script sets it. *)
Module Theme.

Record Doc := mkDoc {
  storage : gmap string string;
  data_theme : option string }.

(** [current === 'dark' ? 'light' : 'dark'] *)
Definition next_theme (current : option string) : string :=
  match current with
  | Some c => if String.eqb c "dark" then "light" else "dark"
  | None => "dark"
  end.

(** The three pages of app.js (story list, story, trending): lines 14-25,
    421-431 and 750-760 are the same but for a log line. *)
Module OpenGround.

Definition initTheme (d : Doc) : Doc :=
  {| storage := storage d;
     data_theme := Some (str_or (storage d !! "openground-theme") "dark") |}.

Definition toggleTheme (d : Doc) : Doc :=
  let next := next_theme (data_theme d) in
  {| storage := <["openground-theme" := next]> (storage d);
     data_theme := Some next |}.

End OpenGround.

(** blindspots.js, lines 6-16. *)
Module BlindspotsPage.

Definition initTheme (d : Doc) : Doc :=
  {| storage := storage d;
     data_theme := Some (str_or (storage d !! "theme") "light") |}.

Definition toggleTheme (d : Doc) : Doc :=
  let next := next_theme (data_theme d) in
  {| storage := <["theme" := next]> (storage d);
     data_theme := Some next |}.

End BlindspotsPage.

(** Leaving a page and opening another: the storage stays, the document is
    new. *)
Definition navigate (d : Doc) : Doc :=
  {| storage := storage d; data_theme := None |}.

End Theme.

(** ** Relative times

    [formatRelativeTime] (app.js 307-319 and 896-908, blindspots.js
    161-173) and [formatTime] (app.js 686-706).  Times are in milliseconds
    since the epoch; an invalid [Date] has no time value, and every
    comparison with the NaN it gives is false. *)
Module Clock.





End Clock.

(** ** The cards of the trending page (app.js, lines 803-844) *)
Module TrendingCards.
Import Trending.

(** The values of the literals [0.5] and [0.3] as JavaScript numbers. *)
Definition half : Q := 1 # 2.
Definition three_tenths : Q := 5404319552844595 # 18014398509481984.

(** [a > b] on numbers. *)
Definition gt (a b : Q) : bool :=
  match Qlt_le_dec b a with left _ => true | right _ => false end.

Record Card := mkCard {
  rank : nat;
  medal : option nat;                (* 1, 2 or 3: the medal shown *)
  shown_keyword : string;
  heat : option Z;                   (* Math.round(heat_score); NaN when missing *)
  mentions : Z;
  shown_sources : Z;
  velocityClass : string;
  velocityLabel : string;
  headlines : list string }.

(** [Math.round]: the nearest integer, halves going up. *)
Definition round (x : Q) : Z := Qfloor (x + (1 # 2)).

(** The callback of [topics.map((topic, index) => ...)]. *)
Definition card (index : nat) (topic : Topic) : Card :=
  let v := match velocity topic with Some x => x | None => 0%Q end in
  let r := S index in
  {| rank := r;
     medal := if (r =? 1)%nat then Some 1%nat
              else if (r =? 2)%nat then Some 2%nat
              else if (r =? 3)%nat then Some 3%nat else None;
     shown_keyword := match keyword topic with Some k => k | None => "" end;
     heat := option_map round (heat_score topic);
     mentions := count topic;
     shown_sources := sources topic;
     velocityClass := if gt v half then "hot" else if gt v three_tenths then "warm" else "cool";
     velocityLabel := if gt v half then "Surging"
                      else if gt v three_tenths then "Rising" else "Steady";
     headlines := match sample_headlines topic with
                  | Some hs => if (0 <? length hs)%nat then firstn 3 hs else []
                  | None => []
                  end |}.

Fixpoint cards_from (index : nat) (l : list Topic) : list Card :=
  match l with
  | [] => []
  | t :: rest => card index t :: cards_from (S index) rest
  end.

(** The cards that [renderTrending] draws for [topics]. *)
Definition cards (l : list Topic) : list Card := cards_from 0 l.

End TrendingCards.

(** ** The story page: rendering and the timeline tab (app.js, 446-736) *)
Module StoryPage.

Record Article := mkArticle {
  publisher_name : option string;
  domain : option string;
  published : option string;
  link : option string;
  a_title : option string;
  summary : option string }.

(** [storyData.compare]: the articles of each side, or nothing. *)
Record Compare := mkCompare {
  c_left : option (list Article);
  c_center : option (list Article);
  c_right : option (list Article);
  c_unknown : option (list Article) }.

Record StoryData := mkStory {
  s_title : option string;
  s_compare : option Compare;
  s_articles : option (list Article) }.

(** What [renderArticle] shows of an article. *)
Record ArticleView := mkView {
  v_publisher : string;
  v_time : option string;           (* the time stamp shown, if any *)
  v_link : string;
  v_title : string;
  v_summary : option string }.

Definition text_or_empty (x : option string) : string :=
  match x with Some t => t | None => "" end.

(** [x ? ... : ''] on a string: shown when present and not empty. *)
Definition truthy (x : option string) : option string :=
  match x with
  | Some t => if String.eqb t "" then None else Some t
  | None => None
  end.

(** [renderArticle] (lines 625-645) *)
Definition renderArticle (a : Article) : ArticleView :=
  {| v_publisher := str_or (publisher_name a) (str_or (domain a) "Unknown");
     v_time := truthy (published a);
     v_link := text_or_empty (link a);
     v_title := text_or_empty (a_title a);
     v_summary := truthy (summary a) |}.

Inductive Bucket : Type := BLeft | BCenter | BRight | BUnknown.

Definition bucket_of (c : Compare) (b : Bucket) : option (list Article) :=
  match b with
  | BLeft => c_left c
  | BCenter => c_center c
  | BRight => c_right c
  | BUnknown => c_unknown c
  end.

Inductive CompareView : Type :=
| NoComparison                                    (* "No comparison data available" *)
| Groups (l : list (Bucket * list ArticleView)).

(** [compare[b.key] && compare[b.key].length > 0] *)
Definition filled (c : Compare) (b : Bucket) : bool :=
  match bucket_of c b with
  | Some l => (0 <? length l)%nat
  | None => false
  end.

(** [renderCompare] (lines 476-503), given [storyData.compare]. *)
Definition renderCompare (compare : option Compare) : CompareView :=
  let c := match compare with
           | Some c => c
           | None => {| c_left := None; c_center := None; c_right := None;
                        c_unknown := None |}
           end in
  let groups :=
    List.map (fun b => (b, List.map renderArticle (list_or (bucket_of c b) [])))
             (List.filter (filled c) [BLeft; BCenter; BRight; BUnknown]) in
  match groups with
  | [] => NoComparison
  | _ => Groups groups
  end.

Inductive AllView : Type :=
| NoArticles                                      (* "No articles available" *)
| Articles (l : list ArticleView).

(** [renderAll] (lines 608-623), given [storyData.articles]. *)
Definition renderAll (articles : option (list Article)) : AllView :=
  let l := list_or articles [] in
  if (length l =? 0)%nat then NoArticles else Articles (List.map renderArticle l).

(** *** The timeline *)

Record TimelineArticle := mkTArticle {
  ta_publisher : option string;
  ta_title : option string;
  ta_link : option string;
  ta_bias_bucket : string }.

Record Phase := mkPhase {
  phase_number : Z;
  article_count : Z;
  dominant_bias : string;
  articles : list TimelineArticle }.

Record Shift := mkShift {
  phase_index : Z;
  description : option string }.

Record TimelineData := mkTimeline {
  timeline_items : option (list TimelineArticle);
  coverage_span_hours : Z;
  total_articles : Z;
  first_reported_by : option TimelineArticle;
  phases : option (list Phase);
  narrative_shifts : option (list Shift) }.

(** [timelineData.narrative_shifts?.find(s => s.phase_index === i + 1)] *)
Definition shift_after (shifts : option (list Shift)) (i : nat) : option Shift :=
  match shifts with
  | Some l => List.find (fun s => (phase_index s =? Z.of_nat i + 1)%Z) l
  | None => None
  end.

(** The [for] loop over the phases, from index [i] on: each phase with the
    narrative shift shown after it, if any. *)
Fixpoint phase_blocks (shifts : option (list Shift)) (i : nat) (l : list Phase)
  : list (Phase * option Shift) :=
  match l with
  | [] => []
  | ph :: rest => (ph, shift_after shifts i) :: phase_blocks shifts (S i) rest
  end.

Inductive TimelineView : Type :=
| TInitial                      (* the markup the page came with *)
| TLoading                      (* "Loading timeline..." *)
| TNoData                       (* "No timeline data available" *)
| TFailed                       (* "Failed to load timeline" *)
| TShown (span total : Z) (phase_count : nat) (first : option TimelineArticle)
         (blocks : list (Phase * option Shift)).

(** [renderTimeline] (lines 505-606), given [timelineData]. *)
Definition renderTimeline (timelineData : option TimelineData) : TimelineView :=
  match timelineData with
  | None => TLoading
  | Some t =>
      match timeline_items t with
      | None => TNoData
      | Some items =>
          if (length items =? 0)%nat then TNoData
          else TShown (coverage_span_hours t) (total_articles t)
                      (length (list_or (phases t) []))
                      (first_reported_by t)
                      (phase_blocks (narrative_shifts t) 0 (list_or (phases t) []))
      end
  end.

(** [let timelineData], [let currentTab], [window.__STORY_ID__], the
    timeline panel, and the timeline requests sent and in flight. *)
Record State := mkState {
  storyId : option string;
  timelineData : option TimelineData;
  currentTab : string;
  timeline : TimelineView;
  requested : nat;
  in_flight : nat }.

(** [loadTimeline] (lines 667-680) up to [await fetchTimeline(storyId)]:
    nothing without a story id. *)
Definition loadTimeline (s : State) : State :=
  match truthy (storyId s) with
  | None => s
  | Some _ =>
      {| storyId := storyId s; timelineData := timelineData s;
         currentTab := currentTab s; timeline := timeline s;
         requested := S (requested s); in_flight := S (in_flight s) |}
  end.

(** From the reply on: the assignment and [renderTimeline], or the
    [catch]. *)
Definition loadTimeline_resume (r : Response TimelineData) (s : State) : State :=
  match Story.fetchTimeline r with
  | Return d =>
      {| storyId := storyId s; timelineData := d; currentTab := currentTab s;
         timeline := renderTimeline d;
         requested := requested s; in_flight := pred (in_flight s) |}
  | Throw _ =>
      {| storyId := storyId s; timelineData := timelineData s;
         currentTab := currentTab s; timeline := TFailed;
         requested := requested s; in_flight := pred (in_flight s) |}
  end.

(** [switchTab] (lines 648-665) *)
Definition switchTab (tabName : string) (s : State) : State :=
  let s1 := {| storyId := storyId s; timelineData := timelineData s;
               currentTab := tabName; timeline := timeline s;
               requested := requested s; in_flight := in_flight s |} in
  if String.eqb tabName "timeline"
  then match timelineData s1 with
       | None => loadTimeline s1
       | Some _ => s1
       end
  else s1.

(** *** Start of the page *)

Inductive TitleText : Type :=
| TitleInitial
| TitleMissingId                (* 'Story ID missing' *)
| TitleNotFound                 (* 'Story not found' *)
| TitleOf (t : option string).  (* storyData.title *)

(** [init] (lines 710-736) up to [await fetchStory(storyId)]: the title it
    writes, and whether the request is sent. *)
Definition init (s : State) : TitleText * bool :=
  match truthy (storyId s) with
  | None => (TitleMissingId, false)
  | Some _ => (TitleInitial, true)
  end.

(** From the reply on: the title, and the two panels if they were drawn.
    With a [null] body [renderHeader] returns at once and [renderCompare]
    throws on [storyData.compare], which the [catch] of [init] turns into
    'Story not found'. *)
Definition init_resume (r : Response StoryData)
  : TitleText * option (CompareView * AllView) :=
  match Story.fetchStory r with
  | Return (Some d) =>
      (TitleOf (s_title d),
       Some (renderCompare (s_compare d), renderAll (s_articles d)))
  | Return None => (TitleNotFound, None)
  | Throw _ => (TitleNotFound, None)
  end.

End StoryPage.

(** * Proofs *)

(** ** The story list page *)
Module AppProofs.
Import App.

(** *** What the handlers do to each part of a world *)

Lemma loadStories_busy k w :
  loading (state w) = true -> loadStories k w = after_load k w.
Proof. intros H. unfold loadStories. now rewrite H. Qed.

Lemma after_load_state k w : state (after_load k w) = state w.
Proof. now destruct k. Qed.

Lemma after_load_page k w : page (after_load k w) = page w.
Proof. now destruct k. Qed.

Lemma filter_load_snoc l p :
  List.filter is_load (l ++ [p]) = List.filter is_load l ++ (if is_load p then [p] else []).
Proof. rewrite List.filter_app. simpl. now destruct (is_load p). Qed.

Lemma after_load_loads k w : loads_in_flight (after_load k w) = loads_in_flight w.
Proof.
  destruct k; simpl; trivial; unfold loads_in_flight, updateMeta, fetch; simpl;
    rewrite filter_load_snoc; simpl; now rewrite app_nil_r.
Qed.

Lemma loadStories_idle k w :
  loading (state w) = false ->
  sent (loadStories k w) = sent w ++ [stories_request (state w)]
  /\ net (loadStories k w) = net w ++ [PStories k]
  /\ state (loadStories k w) = set_loading true (state w).
Proof. intros H. unfold loadStories. rewrite H. auto. Qed.

Lemma lookup_snoc_last {A} (l : list A) (x : A) : (l ++ [x]) !! length l = Some x.
Proof. induction l; simpl; auto. Qed.

Lemma delete_snoc_last {A} (l : list A) (x : A) : delete (length l) (l ++ [x]) = l.
Proof. induction l; simpl; auto. now f_equal. Qed.

Lemma filter_load_delete (l : list Pending) n p :
  l !! n = Some p ->
  length (List.filter is_load l) =
    (length (List.filter is_load (delete n l)) + (if is_load p then 1 else 0))%nat.
Proof.
  revert n. induction l as [|a l IH]; intros [|n] H; simpl in *; try discriminate.
  - injection H as ->. destruct (is_load p); simpl; lia.
  - specialize (IH _ H). destruct (is_load a); simpl; lia.
Qed.

Ltac by_cases :=
  repeat case_match; try reflexivity.

Lemma after_load_net k w :
  net (after_load k w) =
    net w ++ match k with Detached => [] | _ => [PMeta k] end.
Proof. destruct k; simpl; auto using app_nil_r. Qed.

Lemma after_load_timers k w : timers_of (after_load k w) = timers_of w.
Proof. now destruct k. Qed.

Lemma after_load_view k w : refresh_view (after_load k w) = refresh_view w.
Proof. now destruct k. Qed.

Lemma loadStories_loading k w : loading (state (loadStories k w)) = true.
Proof.
  unfold loadStories. destruct (loading (state w)) eqn:L; [|reflexivity].
  now rewrite after_load_state.
Qed.

Lemma loadStories_net k w :
  net (loadStories k w) =
    if loading (state w) then net (after_load k w) else net w ++ [PStories k].
Proof. unfold loadStories. now destruct (loading (state w)). Qed.

Lemma loadStories_timers k w : timers_of (loadStories k w) = timers_of w.
Proof.
  unfold loadStories. destruct (loading (state w)); [apply after_load_timers|reflexivity].
Qed.

Lemma loadStories_view k w : refresh_view (loadStories k w) = refresh_view w.
Proof.
  unfold loadStories. destruct (loading (state w)); [apply after_load_view|].
  reflexivity.
Qed.

(** The fields of [state] that [loadStories] does not write. *)
Lemma loadStories_state k w :
  state (loadStories k w) = set_loading true (state w).
Proof.
  unfold loadStories. destruct (loading (state w)) eqn:L; [|reflexivity].
  rewrite after_load_state. destruct (state w); simpl in *; now subst.
Qed.

Lemma loadStories_resume_state k r w :
  state (loadStories_resume k r w) =
    set_loading false
      match fetchStories r with
      | Return (Some data) => merge_page data (state w)
      | _ => state w
      end.
Proof.
  unfold loadStories_resume. rewrite after_load_state.
  destruct (fetchStories r) as [e|[d|]]; reflexivity.
Qed.

Lemma loadStories_resume_net k r w :
  net (loadStories_resume k r w) =
    net w ++ match k with Detached => [] | _ => [PMeta k] end.
Proof.
  unfold loadStories_resume. rewrite after_load_net.
  destruct (fetchStories r) as [e|[d|]]; reflexivity.
Qed.

Lemma loadStories_resume_sent k r w :
  sent (loadStories_resume k r w) =
    sent w ++ match k with Detached => [] | _ => [GetMeta] end.
Proof.
  unfold loadStories_resume.
  destruct (fetchStories r) as [e|[d|]]; destruct k; simpl; auto using app_nil_r.
Qed.

Lemma loadStories_resume_timers k r w :
  timers_of (loadStories_resume k r w) = timers_of w.
Proof.
  unfold loadStories_resume. rewrite after_load_timers.
  destruct (fetchStories r) as [e|[d|]]; reflexivity.
Qed.

Lemma loadStories_resume_view k r w :
  refresh_view (loadStories_resume k r w) = refresh_view w.
Proof.
  unfold loadStories_resume. rewrite after_load_view.
  destruct (fetchStories r) as [e|[d|]]; unfold refresh_view; cbn; by_cases.
Qed.

Lemma fetchCategories_returns r : exists l, fetchCategories r = Return l.
Proof. destruct r as [|[] []]; simpl; eauto. Qed.

Lemma fetchStories_returns r : exists d, fetchStories r = Return d.
Proof. destruct r as [|[] []]; simpl; eauto. Qed.

Lemma fetchMeta_returns r : exists m, fetchMeta r = Return m.
Proof. destruct r as [|[] []]; simpl; eauto. Qed.

Lemma init_resume_eq r w :
  exists l, init_resume r w =
    loadStories InitK (renderCategories (with_state (set_categories l) w)).
Proof.
  destruct (fetchCategories_returns r) as [l E]. exists l.
  unfold init_resume. now rewrite E.
Qed.

Lemma updateMeta_resume_state k r w : state (updateMeta_resume k r w) = state w.
Proof. destruct k; reflexivity. Qed.

Lemma updateMeta_resume_net k r w : net (updateMeta_resume k r w) = net w.
Proof. destruct k; reflexivity. Qed.

Lemma refreshData_resume_eq r w :
  refreshData_resume r w =
    match refresh_ok r with
    | Some data => loadStories (RefreshK data)
                     (with_state (fun s => set_stories [] (set_offset 0 s)) w)
    | None => refresh_catch w
    end.
Proof.
  unfold refreshData_resume, refresh_ok.
  destruct (refresh_json r) as [e|[d|]]; try reflexivity. now destruct (r_ok d).
Qed.

(** *** [loading] and the page fetches in flight *)

Lemma Balanced_frame w w' :
  net w' = net w -> loading (state w') = loading (state w) ->
  Balanced w -> Balanced w'.
Proof. unfold Balanced, loads_in_flight. now intros -> ->. Qed.

Lemma loads_snoc w p l :
  net w = l ++ [p] ->
  loads_in_flight w = (length (List.filter is_load l) + if is_load p then 1 else 0)%nat.
Proof.
  unfold loads_in_flight. intros ->. rewrite filter_load_snoc, length_app.
  now destruct (is_load p).
Qed.

Lemma after_load_balanced k w : Balanced w -> Balanced (after_load k w).
Proof.
  unfold Balanced. now rewrite after_load_loads, after_load_state.
Qed.

Lemma loadStories_balanced k w : Balanced w -> Balanced (loadStories k w).
Proof.
  intros B. destruct (loading (state w)) eqn:L.
  - rewrite loadStories_busy by assumption. now apply after_load_balanced.
  - unfold Balanced in *. rewrite loadStories_loading.
    rewrite (loads_snoc _ (PStories k) (net w)).
    + unfold loads_in_flight in B. rewrite B, L. reflexivity.
    + rewrite loadStories_net. now rewrite L.
Qed.

Lemma loadStories_resume_balanced k r w :
  loads_in_flight w = 0%nat -> Balanced (loadStories_resume k r w).
Proof.
  intros Z. unfold Balanced, loads_in_flight in *.
  rewrite loadStories_resume_state, loadStories_resume_net. cbn [loading set_loading].
  rewrite List.filter_app, length_app, Z. now destruct k.
Qed.

Ltac framed B :=
  match type of B with
  | Balanced ?w0 => apply (Balanced_frame w0); [reflexivity | reflexivity | exact B]
  end.

Lemma delivered_balanced w n p :
  Balanced w -> net w !! n = Some p ->
  loads_in_flight (with_net (delete n (net w)) w) =
    if is_load p then 0%nat else if loading (state w) then 1%nat else 0%nat.
Proof.
  unfold Balanced, loads_in_flight. intros B L. apply filter_load_delete in L.
  cbn [net with_net]. destruct (is_load p), (loading (state w)); lia.
Qed.

Lemma step_balanced w e w' : Balanced w -> step w e = Some w' -> Balanced w'.
Proof.
  intros B H. destruct e; cbn [step] in H; unfold deliver in H;
    repeat case_match; simplify_eq.
  - framed B.
  - framed B.
  - (* a timer runs *)
    match goal with |- Balanced (fire ?k ?w0) =>
      assert (B0 : Balanced w0) by framed B end.
    destruct (tkind _); cbn [fire]; [|framed B0..].
    unfold searchCallback. case_match; [|assumption].
    apply loadStories_balanced. framed B0.
  - apply loadStories_balanced. framed B.
  - unfold categoryClick. case_match; [assumption|].
    match goal with |- Balanced (updateStatCategory ?x) =>
      apply (Balanced_frame x); [reflexivity | reflexivity |] end.
    apply loadStories_balanced. framed B.
  - apply loadStories_balanced. framed B.
  - apply loadStories_balanced. framed B.
  - unfold refreshData. case_match; [|assumption].
    unfold Balanced in *. erewrite loads_snoc by reflexivity. cbn.
    unfold loads_in_flight in B. rewrite B. now destruct (loading (state w)).
  - now apply loadStories_balanced.
  - destruct (init_resume_eq r0 (with_net (delete n (net w)) w)) as [l ->].
    apply loadStories_balanced.
    match goal with L : net w !! n = Some _ |- _ =>
      pose proof (delivered_balanced _ _ _ B L) as D end.
    unfold Balanced. exact D.
  - apply loadStories_resume_balanced.
    match goal with L : net w !! n = Some _ |- _ =>
      pose proof (delivered_balanced _ _ _ B L) as D end.
    exact D.
  - match goal with L : net w !! n = Some _ |- _ =>
      pose proof (delivered_balanced _ _ _ B L) as D end.
    unfold Balanced, loads_in_flight in *.
    rewrite updateMeta_resume_state, updateMeta_resume_net. exact D.
  - match goal with L : net w !! n = Some _ |- _ =>
      pose proof (delivered_balanced _ _ _ B L) as D end.
    assert (B0 : Balanced (with_net (delete n (net w)) w)) by exact D.
    rewrite refreshData_resume_eq. destruct (refresh_ok r0).
    + apply loadStories_balanced. framed B0.
    + framed B0.
Qed.

Lemma reachable_balanced w : Reachable w -> Balanced w.
Proof.
  induction 1 as [p _|w e w' _ IH H].
  - reflexivity.
  - eapply step_balanced; eauto.
Qed.

(** *** The pending timers *)

Lemma TimersOK_frame w w' :
  timers_of w' = timers_of w -> TimersOK w -> TimersOK w'.
Proof.
  unfold timers_of, TimersOK, timer_ok. intros E. injection E as -> -> ->. auto.
Qed.

Lemma TimersOK_clear id w : TimersOK w -> TimersOK (clearTimeout id w).
Proof.
  unfold TimersOK, clearTimeout. cbn. intros H.
  destruct id; [|exact H].
  rewrite List.Forall_forall in *. intros t Ht.
  apply List.filter_In in Ht as [Ht _]. exact (H t Ht).
Qed.

Lemma TimersOK_setTimeout k ms w :
  k <> TSearch -> TimersOK w -> TimersOK (setTimeout k ms false w).
Proof.
  unfold TimersOK, timer_ok, setTimeout. cbn. intros Hk H.
  apply Forall_app. split.
  - eapply List.Forall_impl; [|exact H]. cbn. intros t [? ?]. split; [lia|assumption].
  - constructor; [split; cbn; [lia|congruence]|constructor].
Qed.

Lemma TimersOK_showToast m ty w : TimersOK w -> TimersOK (showToast m ty w).
Proof.
  intros H. unfold showToast. apply TimersOK_setTimeout; [discriminate|].
  now apply (TimersOK_frame w).
Qed.

Lemma handleSearch_search_timers w :
  TimersOK w ->
  search_timers (handleSearch w) =
    [ {| tid := next_timer w; due := (clock w + 300)%nat; tkind := TSearch |} ].
Proof.
  unfold TimersOK, handleSearch, search_timers, setTimeout, clearTimeout. cbn.
  intros H. rewrite List.filter_app. cbn.
  match goal with |- ?l ++ _ = _ => assert (E : l = []); [|now rewrite E] end.
  induction H as [|t l [_ Ht] _ IH]; cbn.
  - now destruct (searchTimeout w).
  - destruct (searchTimeout w) as [i|] eqn:S.
    + cbn [List.filter]. destruct (Nat.eqb_spec (tid t) i) as [E|Hne]; cbn.
      * exact IH.
      * destruct (tkind t) eqn:K; try exact IH.
        specialize (Ht eq_refl). congruence.
    + cbn [List.filter]. destruct (tkind t) eqn:K; try exact IH.
      specialize (Ht eq_refl). congruence.
Qed.

Lemma TimersOK_handleSearch w : TimersOK w -> TimersOK (handleSearch w).
Proof.
  intros H. pose proof (TimersOK_clear (searchTimeout w) w H) as Hc.
  pose proof (handleSearch_search_timers w H) as Hs.
  unfold TimersOK in *. rewrite List.Forall_forall in *. intros t Ht.
  assert (In t (timers (clearTimeout (searchTimeout w) w)) \/
          t = {| tid := next_timer w; due := (clock w + 300)%nat; tkind := TSearch |})
    as [I| ->].
  { unfold handleSearch, setTimeout in Ht. cbn [timers] in Ht.
    apply in_app_or in Ht as [?|[<-|[]]]; auto. }
  - destruct (Hc t I) as [Hlt _]. cbn in Hlt. split.
    + unfold handleSearch, setTimeout. cbn. lia.
    + intros K. exfalso.
      assert (In t (search_timers (handleSearch w))) as J.
      { unfold search_timers. apply List.filter_In. split; [exact Ht|now rewrite K]. }
      rewrite Hs in J. destruct J as [<-|[]]. cbn in Hlt. lia.
  - split; cbn; [lia|reflexivity].
Qed.

Lemma step_timers w e w' : TimersOK w -> step w e = Some w' -> TimersOK w'.
Proof.
  intros B H. destruct e; cbn [step] in H; unfold deliver in H;
    repeat case_match; simplify_eq.
  - now apply (TimersOK_frame w).
  - apply TimersOK_handleSearch. now apply (TimersOK_frame w).
  - pose proof (TimersOK_clear (Some id) w B) as B0.
    destruct (tkind _); cbn [fire].
    + unfold searchCallback. case_match; [|assumption].
      eapply TimersOK_frame; [|exact B0]. now rewrite loadStories_timers.
    + now apply TimersOK_setTimeout.
    + now apply (TimersOK_frame (clearTimeout (Some id) w)).
  - eapply TimersOK_frame; [|exact B]. unfold clearSearch. now rewrite loadStories_timers.
  - unfold categoryClick. case_match; [assumption|].
    eapply TimersOK_frame; [|exact B].
    change (timers_of (updateStatCategory ?x)) with (timers_of x).
    now rewrite loadStories_timers.
  - eapply TimersOK_frame; [|exact B]. unfold loadMore. now rewrite loadStories_timers.
  - eapply TimersOK_frame; [|exact B]. unfold loadMore. now rewrite loadStories_timers.
  - unfold refreshData. case_match; [|assumption]. now apply (TimersOK_frame w).
  - eapply TimersOK_frame; [|exact B]. now rewrite loadStories_timers.
  - destruct (init_resume_eq r0 (with_net (delete n (net w)) w)) as [l ->].
    eapply TimersOK_frame; [|exact B]. now rewrite loadStories_timers.
  - eapply TimersOK_frame; [|exact B]. now rewrite loadStories_resume_timers.
  - unfold updateMeta_resume, after_meta. destruct k.
    + now apply (TimersOK_frame w).
    + now apply (TimersOK_frame w).
    + match goal with |- TimersOK (refresh_finally ?x) =>
        apply (TimersOK_frame x); [reflexivity|] end.
      apply TimersOK_showToast. now apply (TimersOK_frame w).
  - rewrite refreshData_resume_eq. destruct (refresh_ok r0).
    + eapply TimersOK_frame; [|exact B]. now rewrite loadStories_timers.
    + unfold refresh_catch.
      match goal with |- TimersOK (refresh_finally ?x) =>
        apply (TimersOK_frame x); [reflexivity|] end.
      apply TimersOK_showToast. now apply (TimersOK_frame w).
Qed.

Lemma reachable_timers w : Reachable w -> TimersOK w.
Proof.
  induction 1 as [p _|w e w' _ IH H].
  - constructor.
  - eapply step_timers; eauto.
Qed.

(** *** The refresh button and the refresh under way *)

Lemma filter_refresh_delete (l : list Pending) n p :
  l !! n = Some p ->
  length (List.filter is_refresh l) =
    (length (List.filter is_refresh (delete n l)) + (if is_refresh p then 1 else 0))%nat.
Proof.
  revert n. induction l as [|a l IH]; intros [|n] H; simpl in *; try discriminate.
  - injection H as ->. destruct (is_refresh p); simpl; lia.
  - specialize (IH _ H). destruct (is_refresh a); simpl; lia.
Qed.

Lemma refreshes_snoc w p l :
  net w = l ++ [p] ->
  refreshes_in_flight w =
    (length (List.filter is_refresh l) + if is_refresh p then 1 else 0)%nat.
Proof.
  unfold refreshes_in_flight. intros ->. rewrite List.filter_app, length_app.
  cbn. now destruct (is_refresh p).
Qed.

Lemma btn_disabled_view w w' :
  refresh_view w' = refresh_view w -> btn_disabled w' = btn_disabled w.
Proof. unfold refresh_view, btn_disabled. intros E. injection E as -> _ _. reflexivity. Qed.

Lemma after_load_refreshes k w :
  refreshes_in_flight (after_load k w) =
    (refreshes_in_flight w + awaited_by_refresh k)%nat.
Proof.
  unfold refreshes_in_flight. rewrite after_load_net, List.filter_app, length_app.
  now destruct k.
Qed.

Lemma loadStories_refreshes k w :
  refreshes_in_flight (loadStories k w) =
    (refreshes_in_flight w + awaited_by_refresh k)%nat.
Proof.
  unfold loadStories. destruct (loading (state w)); [apply after_load_refreshes|].
  erewrite refreshes_snoc by reflexivity. now destruct k.
Qed.

Lemma loadStories_resume_refreshes k r w :
  refreshes_in_flight (loadStories_resume k r w) =
    (refreshes_in_flight w + awaited_by_refresh k)%nat.
Proof.
  unfold refreshes_in_flight. rewrite loadStories_resume_net, List.filter_app, length_app.
  now destruct k.
Qed.

Lemma RefreshOK_frame w w' :
  net w' = net w -> refreshBtn (page w') = refreshBtn (page w) ->
  RefreshOK w -> RefreshOK w'.
Proof. unfold RefreshOK, refreshes_in_flight, btn_disabled. now intros -> ->. Qed.

Lemma RefreshOK_loadStories w :
  RefreshOK w -> forall k, awaited_by_refresh k = 0%nat -> RefreshOK (loadStories k w).
Proof.
  unfold RefreshOK. intros H k Hk.
  rewrite loadStories_refreshes, Hk, Nat.add_0_r, H.
  now rewrite (btn_disabled_view w (loadStories k w)) by apply loadStories_view.
Qed.

Lemma delivered_refresh w n p :
  RefreshOK w -> net w !! n = Some p ->
  refreshes_in_flight (with_net (delete n (net w)) w) =
    (if is_refresh p then 0%nat else if btn_disabled w then 1%nat else 0%nat)
  /\ (is_refresh p = true -> btn_disabled w = true).
Proof.
  unfold RefreshOK, refreshes_in_flight. intros B L. apply filter_refresh_delete in L.
  cbn [net with_net]. destruct (is_refresh p), (btn_disabled w); split; auto; lia.
Qed.

Lemma refresh_finally_ok w :
  refreshes_in_flight w = 0%nat -> RefreshOK (refresh_finally w).
Proof.
  unfold RefreshOK, refreshes_in_flight, btn_disabled. cbn. intros ->.
  now destruct (refreshBtn (page w)).
Qed.

Lemma step_refresh w e w' : RefreshOK w -> step w e = Some w' -> RefreshOK w'.
Proof.
  intros B H. destruct e; cbn [step] in H; unfold deliver in H;
    repeat case_match; simplify_eq.
  - now apply (RefreshOK_frame w).
  - now apply (RefreshOK_frame w).
  - assert (B0 : RefreshOK (clearTimeout (Some id) w)) by now apply (RefreshOK_frame w).
    destruct (tkind _); cbn [fire].
    + unfold searchCallback. case_match; [|assumption].
      apply RefreshOK_loadStories; [|reflexivity]. now eapply RefreshOK_frame; [| |exact B0].
    + now eapply RefreshOK_frame; [| |exact B0].
    + now eapply RefreshOK_frame; [| |exact B0].
  - apply RefreshOK_loadStories; [|reflexivity]. now apply (RefreshOK_frame w).
  - unfold categoryClick. case_match; [assumption|].
    match goal with |- RefreshOK (updateStatCategory ?x) =>
      apply (RefreshOK_frame x); [reflexivity | reflexivity |] end.
    apply RefreshOK_loadStories; [|reflexivity]. now apply (RefreshOK_frame w).
  - apply RefreshOK_loadStories; [|reflexivity]. now apply (RefreshOK_frame w).
  - apply RefreshOK_loadStories; [|reflexivity]. now apply (RefreshOK_frame w).
  - (* the click starts a refresh: the button was enabled *)
    unfold refreshData. case_match; simplify_eq.
    unfold RefreshOK in *. erewrite refreshes_snoc by reflexivity.
    unfold refreshes_in_flight, btn_disabled in *. cbn.
    match goal with E : refreshBtn (page w) = Some _, D : disabled _ = false |- _ =>
      rewrite E, D in B end.
    cbn in B. now rewrite B.
  - now apply RefreshOK_loadStories.
  - destruct (init_resume_eq r0 (with_net (delete n (net w)) w)) as [l ->].
    match goal with L : net w !! n = Some _ |- _ =>
      destruct (delivered_refresh _ _ _ B L) as [D _] end.
    apply RefreshOK_loadStories; [|reflexivity]. exact D.
  - match goal with L : net w !! n = Some _ |- _ =>
      destruct (delivered_refresh _ _ _ B L) as [D E] end.
    unfold RefreshOK. rewrite loadStories_resume_refreshes, D.
    rewrite (btn_disabled_view (with_net (delete n (net w)) w) (loadStories_resume _ _ _))
      by apply loadStories_resume_view.
    change (btn_disabled (with_net _ w)) with (btn_disabled w).
    destruct k; cbn [awaited_by_refresh is_refresh] in *;
      [now rewrite Nat.add_0_r..|now rewrite E].
  - match goal with L : net w !! n = Some _ |- _ =>
      destruct (delivered_refresh _ _ _ B L) as [D E] end.
    unfold updateMeta_resume, after_meta. destruct k.
    + eapply RefreshOK_frame; [| |exact D];
        [reflexivity | cbn; now destruct (fetchMeta r0) as [|[|]]].
    + eapply RefreshOK_frame; [| |exact D];
        [reflexivity | cbn; now destruct (fetchMeta r0) as [|[|]]].
    + apply refresh_finally_ok. exact D.
  - match goal with L : net w !! n = Some _ |- _ =>
      destruct (delivered_refresh _ _ _ B L) as [D E] end.
    rewrite refreshData_resume_eq. destruct (refresh_ok r0).
    + unfold RefreshOK. rewrite loadStories_refreshes.
      rewrite (btn_disabled_view _ (loadStories _ _)) by apply loadStories_view.
      change (btn_disabled (with_state _ (with_net _ w))) with (btn_disabled w).
      change (refreshes_in_flight (with_state ?f ?x)) with (refreshes_in_flight x).
      rewrite D, E by reflexivity. reflexivity.
    + apply refresh_finally_ok. exact D.
Qed.

Lemma reachable_refresh w : Reachable w -> RefreshOK w.
Proof.
  induction 1 as [p [_ Hp]|w e w' _ IH H].
  - unfold RefreshOK, refreshes_in_flight, btn_disabled. cbn.
    destruct (refreshBtn p); [now rewrite Hp|reflexivity].
  - eapply step_refresh; eauto.
Qed.

(** ** Running the page *)

Lemma run_reachable es : forall w w', Reachable w -> run w es = Some w' -> Reachable w'.
Proof.
  induction es as [|e es IH]; cbn; intros w w' R H.
  - now simplify_eq.
  - destruct (step w e) as [w1|] eqn:S; [|discriminate].
    eapply IH; [|exact H]. eapply reach_step; eauto.
Qed.

Lemma arrives_page0 : arrives page0.
Proof. split; reflexivity. Qed.

Lemma deliver_stories w l k r :
  net w = l ++ [PStories k] ->
  deliver (length l) (RStories r) w = Some (loadStories_resume k r (with_net l w)).
Proof.
  intros E. unfold deliver. rewrite E, lookup_snoc_last, delete_snoc_last. reflexivity.
Qed.

Lemma deliver_at w n k r :
  net w !! n = Some (PStories k) ->
  deliver n (RStories r) w =
    Some (loadStories_resume k r (with_net (delete n (net w)) w)).
Proof. intros E. unfold deliver. now rewrite E. Qed.

Lemma merge_page_stories total items s :
  stories (merge_page {| d_total := Some total; d_items := Some items |} s) =
    if (offset s =? 0)%Z then items else stories s ++ items.
Proof. reflexivity. Qed.

(** ** The claims about the story list page *)

(** C1, as the code has it.  [loadMore] does not look at [hasMore], whose
    only effect is to hide the button.  When no load is in progress it adds
    [limit] to [offset] and sends exactly one request, for the new offset,
    and the page that answers it is appended to the list; a second call
    before the answer sends nothing.  While a load is in progress no
    request is sent and the list, [hasMore], [loading] and the document are
    unchanged. *)
Theorem C1_loadMore_effect (w : World) :
  (0 <= offset (state w))%Z -> (0 < limit (state w))%Z ->
  (loading (state w) = false ->
     sent (loadMore w) =
       sent w ++ [GetStories (str_or (Some (category (state w))) "All")
                             (str_or (Some (query (state w))) "")
                             (limit (state w))
                             (offset (state w) + limit (state w))%Z]
     /\ net (loadMore w) = net w ++ [PStories Detached]
     /\ state (loadMore w) =
          set_loading true
            (set_offset (offset (state w) + limit (state w))%Z (state w))
     /\ (forall total items, exists w',
           deliver (length (net w)) (RStories (page_reply total items)) (loadMore w)
             = Some w'
           /\ stories (state w') = stories (state w) ++ items)
     /\ sent (loadMore (loadMore w)) = sent (loadMore w))
  /\ (loading (state w) = true ->
     sent (loadMore w) = sent w
     /\ net (loadMore w) = net w
     /\ page (loadMore w) = page w
     /\ stories (state (loadMore w)) = stories (state w)
     /\ hasMore (state (loadMore w)) = hasMore (state w)
     /\ loading (state (loadMore w)) = true).
Proof.
  intros Hoff Hlim. split; intros L.
  - unfold loadMore.
    set (w1 := with_state (fun s => set_offset (offset s + limit s)%Z s) w).
    assert (L1 : loading (state w1) = false) by exact L.
    destruct (loadStories_idle Detached w1 L1) as (Hs & Hn & Hst).
    split; [exact Hs|]. split; [exact Hn|]. split; [exact Hst|]. split.
    + intros total items. eexists. split.
      * apply deliver_stories. exact Hn.
      * rewrite loadStories_resume_state. cbn [fetchStories page_reply negb].
        cbn [stories set_loading]. rewrite merge_page_stories.
        cbn [state with_net]. rewrite Hst. cbn [offset stories set_loading].
        destruct (Z.eqb_spec (offset (state w1)) 0) as [E|_]; [|reflexivity].
        subst w1. cbn in E. lia.
    + assert (L2 : loading (state (with_state (fun s => set_offset (offset s + limit s)%Z s)
                                     (loadStories Detached w1))) = true).
      { cbn. rewrite Hst. reflexivity. }
      now rewrite (loadStories_busy _ _ L2).
  - unfold loadMore. rewrite loadStories_busy by exact L. cbn. auto 10.
Qed.

Lemma C1_loadMore_effect_witness :
  sent (loadMore (init (fresh page0))) =
    [GetCategories; GetStories "All" "" 30 30]
  /\ offset (state (loadMore (init (fresh page0)))) = 30%Z.
Proof.
  assert (H0 : (0 <= offset (state (init (fresh page0))))%Z) by (cbn; lia).
  assert (H1 : (0 < limit (state (init (fresh page0))))%Z) by (cbn; lia).
  destruct (C1_loadMore_effect (init (fresh page0)) H0 H1) as [Idle _].
  destruct (Idle eq_refl) as (Hs & _ & Hst & _).
  split.
  - rewrite Hs. reflexivity.
  - rewrite Hst. reflexivity.
Defined.

(** C1 as stated fails: after a first page that holds everything ([hasMore]
    false, nothing loading) a call of [loadMore] does send a request and
    moves [offset]; and while the first page is still loading a call of
    [loadMore] moves [offset] too. *)
Lemma C1_counterexample :
  (exists w,
     run (init (fresh page0))
         (started ++ [EReply 0%nat (ok_page 2 [story "A"; story "B"])]) = Some w
     /\ hasMore (state w) = false /\ loading (state w) = false
     /\ offset (state w) = 0%Z
     /\ sent (loadMore w) = sent w ++ [GetStories "All" "" 30 30]
     /\ offset (state (loadMore w)) = 30%Z)
  /\ (exists w,
     run (init (fresh page0)) started = Some w
     /\ loading (state w) = true /\ offset (state w) = 0%Z
     /\ offset (state (loadMore w)) = 30%Z).
Proof.
  split; eexists; (split; [vm_compute; reflexivity|]); vm_compute; auto 10.
Qed.

(** C2.  When a page arrives, the list becomes the page's items if
    [offset] is 0 and the old list followed by the items otherwise, and
    [hasMore] says whether the list is shorter than the reported total.  The
    two runs of the specification give [A,B] with [hasMore] false, and
    [A,B,C,D] with [hasMore] true. *)
Theorem C2_page_merge :
  (forall k data w,
     let w' := loadStories_resume k (HttpResp true (JsonObj data)) w in
     stories (state w') =
       (if (offset (state w) =? 0)%Z then list_or (d_items data) []
        else stories (state w) ++ list_or (d_items data) [])
     /\ hasMore (state w') =
          (Z.of_nat (length (stories (state w'))) <? int_or0 (d_total data))%Z)
  /\ (forall k total items w,
     let w' := loadStories_resume k (page_reply total items) w in
     stories (state w') =
       (if (offset (state w) =? 0)%Z then items else stories (state w) ++ items)
     /\ hasMore (state w') = (Z.of_nat (length (stories (state w'))) <? total)%Z)
  /\ (exists w,
        run (init (fresh page0))
            (started ++ [EReply 0%nat (ok_page 2 [story "A"; story "B"])]) = Some w
        /\ stories (state w) = [story "A"; story "B"]
        /\ hasMore (state w) = false)
  /\ (exists w,
        run (init (fresh page0))
            (started ++ [EReply 0%nat (ok_page 5 [story "A"; story "B"]);
                         EMore;
                         EReply 1%nat (ok_page 5 [story "C"; story "D"])]) = Some w
        /\ stories (state w) = [story "A"; story "B"; story "C"; story "D"]
        /\ hasMore (state w) = true).
Proof.
  assert (G : forall k data w,
     let w' := loadStories_resume k (HttpResp true (JsonObj data)) w in
     stories (state w') =
       (if (offset (state w) =? 0)%Z then list_or (d_items data) []
        else stories (state w) ++ list_or (d_items data) [])
     /\ hasMore (state w') =
          (Z.of_nat (length (stories (state w'))) <? int_or0 (d_total data))%Z).
  { intros k data w w'. subst w'.
    rewrite loadStories_resume_state. cbn [fetchStories negb].
    unfold merge_page. cbn. auto. }
  split; [exact G|]. split; [|split].
  - intros k total items w. exact (G k _ w).
  - eexists. split; [vm_compute; reflexivity|]. vm_compute. auto.
  - eexists. split; [vm_compute; reflexivity|]. vm_compute. auto.
Qed.

(** C3, as the code has it.  In every world the page can reach, [loading]
    is set exactly when one page fetch is in flight, and never more than
    one is; a call of [loadStories] made while [loading] is set changes
    neither the state nor the document and sends nothing (its caller, if it
    awaits the call, goes on); and [loading] is false when a load ends,
    whatever the reply was.  The call that is dropped returns before the
    [try], so it leaves [loading] set. *)
Theorem C3_loading_invariant (w : World) :
  Reachable w ->
  loads_in_flight w = (if loading (state w) then 1%nat else 0%nat)
  /\ (loads_in_flight w <= 1)%nat
  /\ (loading (state w) = true ->
        loadStories Detached w = w
        /\ forall k, state (loadStories k w) = state w
                     /\ page (loadStories k w) = page w
                     /\ loads_in_flight (loadStories k w) = loads_in_flight w
                     /\ List.filter (fun r => match r with GetStories _ _ _ _ => true
                                                      | _ => false end)
                                    (sent (loadStories k w))
                        = List.filter (fun r => match r with GetStories _ _ _ _ => true
                                                        | _ => false end)
                                      (sent w))
  /\ (forall k r w0, loading (state (loadStories_resume k r w0)) = false).
Proof.
  intros R. pose proof (reachable_balanced w R) as B. unfold Balanced in B.
  split; [exact B|]. split; [rewrite B; destruct (loading (state w)); lia|]. split.
  - intros L. split; [now rewrite loadStories_busy|].
    intros k. rewrite loadStories_busy by exact L.
    rewrite after_load_state, after_load_page, after_load_loads.
    repeat split. destruct k; cbn; rewrite ?List.filter_app; cbn;
      auto using app_nil_r.
  - intros k r w0. now rewrite loadStories_resume_state.
Qed.

Lemma C3_loading_invariant_witness :
  loads_in_flight (init (fresh page0)) = 0%nat.
Proof.
  exact (proj1 (C3_loading_invariant (init (fresh page0))
                 (reach_init page0 arrives_page0))).
Defined.

(** C3 as stated fails on the skipped call: with the first page in flight,
    a call of [loadStories] returns at the guard and [loading] is still
    set. *)
Lemma C3_counterexample :
  exists w,
    run (init (fresh page0)) started = Some w
    /\ loading (state w) = true
    /\ loading (state (loadStories Detached w)) = true.
Proof. eexists. split; [vm_compute; reflexivity|]. vm_compute. auto. Qed.

Lemma fetchStories_failed r :
  failed r = true -> fetchStories r = Return (Some stories_fallback).
Proof. destruct r as [|[] []]; cbn; intros; try discriminate; reflexivity. Qed.

(** C4 at work.  The first page is in flight and the network fails: the
    reply is turned into an empty page, so the grid shows no card and no
    "Failed to load" with its Retry button, the "load more" button is
    hidden, and [loading] is cleared. *)
Theorem C4_first_page_fails :
  exists w,
    run (init (fresh page0)) (started ++ [EReply 0%nat (RStories NetFail)]) = Some w
    /\ grid (page w) = Some (GCards [])
    /\ grid (page w) <> Some GFailed
    /\ step w ERetry = None
    /\ more (page w) = Some DNone
    /\ stories (state w) = []
    /\ hasMore (state w) = false
    /\ loading (state w) = false.
Proof.
  eexists. split; [vm_compute; reflexivity|]. vm_compute. repeat split; congruence.
Qed.

(** Whatever the world, a failed page request never reaches the [catch] of
    [loadStories]: the list is kept when [offset] is not 0 and emptied when
    it is, the grid shows the list's cards, [hasMore] becomes false and
    [loading] is cleared. *)
Lemma failed_page_load k r w :
  failed r = true -> loading (state w) = true ->
  stories (state (loadStories_resume k r w)) =
    (if (offset (state w) =? 0)%Z then [] else stories (state w))
  /\ hasMore (state (loadStories_resume k r w)) = false
  /\ loading (state (loadStories_resume k r w)) = false
  /\ grid (page (loadStories_resume k r w)) =
       put (GCards (if (offset (state w) =? 0)%Z then [] else stories (state w)))
           (grid (page w)).
Proof.
  intros F L. rewrite loadStories_resume_state, (fetchStories_failed r F).
  unfold loadStories_resume. rewrite after_load_page, (fetchStories_failed r F).
  cbn. rewrite L, andb_false_r.
  destruct (offset (state w) =? 0)%Z; cbn; rewrite ?app_nil_r.
  - auto.
  - repeat split. apply Z.ltb_ge. lia.
Qed.

(** C6, as the code has it.  At most one page fetch is in flight, so the
    replies come in the order of the requests; but a reply is merged under
    the filter of the moment it arrives.  When a category is clicked while
    a page is loading, the click empties the list and resets [offset], the
    new load is dropped (no request leaves for the new category), and the
    page that was asked for under the old filter becomes the list. *)
Theorem C6_stale_reply (w : World) (c : string) :
  Reachable w -> loading (state w) = true -> c <> category (state w) ->
  loads_in_flight w = 1%nat
  /\ category (state (categoryClick c w)) = c
  /\ stories (state (categoryClick c w)) = []
  /\ offset (state (categoryClick c w)) = 0%Z
  /\ sent (categoryClick c w) = sent w
  /\ net (categoryClick c w) = net w
  /\ forall n k total items,
       net w !! n = Some (PStories k) ->
       exists w2,
         deliver n (RStories (page_reply total items)) (categoryClick c w) = Some w2
         /\ category (state w2) = c
         /\ stories (state w2) = items
         /\ loading (state w2) = false.
Proof.
  intros R L Hc. pose proof (reachable_balanced w R) as B. unfold Balanced in B.
  rewrite L in B. split; [exact B|].
  apply String.eqb_neq in Hc.
  assert (E : categoryClick c w =
              updateStatCategory (renderCategories
                (with_state (fun s => set_stories [] (set_offset 0 (set_category c s))) w))).
  { unfold categoryClick. rewrite Hc. now rewrite loadStories_busy. }
  rewrite E. cbn. repeat split.
  intros n k total items Hn. eexists. split.
  - apply deliver_at. exact Hn.
  - rewrite loadStories_resume_state. cbn. auto.
Qed.

Lemma C6_stale_reply_witness :
  exists w, run (init (fresh page0)) started = Some w
            /\ stories (state (categoryClick "World" w)) = [].
Proof.
  exists (loadStories InitK (renderCategories
            (with_state (set_categories ["All"; "World"]) (with_net [] (init (fresh page0)))))).
  split; [reflexivity|].
  refine (proj1 (proj2 (proj2 (C6_stale_reply _ "World" _ _ _)))).
  - eapply run_reachable with (es := started);
      [exact (reach_init page0 arrives_page0)|reflexivity].
  - reflexivity.
  - cbn. discriminate.
Defined.

(** C6 as stated fails: the first page (category "All") is in flight, the
    user clicks "World", and the reply for "All" arrives.  The list shown
    under "World" is the one of "All", and no request was ever sent for
    "World". *)
Lemma C6_counterexample :
  exists w,
    run (init (fresh page0))
        (started ++ [ECategory "World";
                     EReply 0%nat (ok_page 2 [story "A"; story "B"])]) = Some w
    /\ category (state w) = "World"
    /\ stories (state w) = [story "A"; story "B"]
    /\ sent w = [GetCategories; GetStories "All" "" 30 0; GetMeta].
Proof. eexists. split; [vm_compute; reflexivity|]. vm_compute. auto. Qed.

(** *** Typing into the search box *)

Lemma find_snoc_fresh (l : list Timer) (t : Timer) :
  Forall (fun x => (tid x < tid t)%nat) l ->
  List.find (fun x => Nat.eqb (tid x) (tid t)) (l ++ [t]) = Some t.
Proof.
  induction 1 as [|x l Hx _ IH]; cbn.
  - now rewrite Nat.eqb_refl.
  - destruct (Nat.eqb_spec (tid x) (tid t)); [lia|exact IH].
Qed.

Lemma handleSearch_find w :
  TimersOK w ->
  find_timer (next_timer w) (handleSearch w) = Some (search_timer (next_timer w) (clock w)).
Proof.
  intros H. apply (TimersOK_clear (searchTimeout w)) in H.
  unfold find_timer, handleSearch, setTimeout. cbn [timers].
  apply (find_snoc_fresh _ (search_timer (next_timer w) (clock w))).
  eapply List.Forall_impl; [|exact H]. cbn. now intros t [? _].
Qed.

Lemma find_timer_search id w t :
  find_timer id w = Some t -> tkind t = TSearch -> In t (search_timers w) /\ tid t = id.
Proof.
  unfold find_timer, search_timers. intros F K.
  apply List.find_some in F as [I E]. split.
  - apply List.filter_In. now rewrite K.
  - now apply Nat.eqb_eq.
Qed.

Lemma filter_comm {A} (f g : A -> bool) (l : list A) :
  List.filter f (List.filter g l) = List.filter g (List.filter f l).
Proof.
  induction l as [|a l IH]; [reflexivity|]. cbn [List.filter].
  destruct (f a) eqn:F, (g a) eqn:G; cbn [List.filter]; rewrite ?F, ?G, IH; reflexivity.
Qed.

Lemma search_timers_clear id w :
  search_timers (clearTimeout (Some id) w) =
    List.filter (fun t => negb (Nat.eqb (tid t) id)) (search_timers w).
Proof. unfold search_timers, clearTimeout. cbn [timers with_timers]. apply filter_comm. Qed.

Lemma typed_key w text :
  TimersOK w ->
  Typed w (handleSearch (with_page (set_q (Some text)) w)) text (next_timer w).
Proof.
  intros H. set (w0 := with_page (set_q (Some text)) w).
  assert (H0 : TimersOK w0) by now apply (TimersOK_frame w).
  constructor; try reflexivity.
  - exact (handleSearch_find w0 H0).
  - exact (handleSearch_search_timers w0 H0).
  - now apply TimersOK_handleSearch.
Qed.

Lemma typed_waiting w w1 text id ms :
  Typed w w1 text id -> (ms < 300)%nat ->
  search_cannot_fire (with_clock (clock w1 + ms)%nat w1).
Proof.
  intros T Hms j t F K. apply find_timer_search in F as [I E]; [|exact K].
  change (search_timers (with_clock _ w1)) with (search_timers w1) in I.
  rewrite (typed_only _ _ _ _ T) in I. destruct I as [<-|[]]. cbn in E. subst j.
  cbn [step]. change (find_timer id (with_clock _ w1)) with (find_timer id w1).
  rewrite (typed_find _ _ _ _ T). cbn.
  destruct (Nat.leb_spec (clock w1 + 300) (clock w1 + ms)); [lia|reflexivity].
Qed.

Lemma typed_run w first rest :
  TimersOK w -> q (page w) <> None ->
  exists w1 id,
    run w (keystrokes first rest) = Some w1
    /\ Typed w w1 (final_text first rest) id.
Proof.
  revert w first. induction rest as [|[gap text] rest IH]; intros w first H Q.
  - exists (handleSearch (with_page (set_q (Some first)) w)), (next_timer w).
    split; [|now apply typed_key].
    cbn. destruct (q (page w)); [reflexivity|congruence].
  - pose proof (typed_key w first H) as T.
    set (wa := handleSearch (with_page (set_q (Some first)) w)) in *.
    set (wb := with_clock (clock wa + gap)%nat wa).
    assert (Hb : TimersOK wb) by (apply (TimersOK_frame wa); [reflexivity|apply T]).
    assert (Qb : q (page wb) <> None) by (cbn; discriminate).
    destruct (IH wb text Hb Qb) as (w1 & id & R & T1).
    exists w1, id. split.
    + cbn. destruct (q (page w)); [exact R|congruence].
    + destruct T1. constructor; auto.
Qed.

(** Between the keystrokes of a burst no search callback can run. *)
Lemma typed_quiet w first rest :
  TimersOK w -> q (page w) <> None ->
  Forall (fun g => (fst g < 300)%nat) rest ->
  forall pre post w',
    keystrokes first rest = pre ++ post -> pre <> [] ->
    run w pre = Some w' -> search_cannot_fire w'.
Proof.
  revert w first. induction rest as [|[gap text] rest IH]; intros w first H Q G.
  - intros pre post w' E Hne R. cbn in E.
    destruct pre as [|e [|e' pre]]; [congruence| |destruct pre; discriminate].
    injection E as <- _. cbn in R. destruct (q (page w)); [|congruence]. simplify_eq.
    pose proof (typed_waiting w _ first _ 0 (typed_key w first H) ltac:(lia)) as W.
    intros j t F K. specialize (W j t F K). cbn [step] in *.
    change (find_timer j (with_clock _ ?x)) with (find_timer j x) in W.
    destruct (find_timer j _); [|reflexivity].
    cbn in W. rewrite Nat.add_0_r in W. exact W.
  - intros pre post w' E Hne R.
    apply Forall_cons in G as [Hg G']. cbn in Hg.
    pose proof (typed_key w first H) as T.
    set (wa := handleSearch (with_page (set_q (Some first)) w)) in *.
    cbn [keystrokes] in E.
    destruct pre as [|e1 pre]; [congruence|]. injection E as <- E.
    cbn [run step] in R. destruct (q (page w)); [|congruence]. fold wa in R.
    destruct pre as [|e2 pre].
    + cbn in R. injection R as <-.
      pose proof (typed_waiting w wa first _ 0 T ltac:(lia)) as W.
      intros j t F K. specialize (W j t F K). cbn [step] in *.
      change (find_timer j (with_clock _ ?x)) with (find_timer j x) in W.
      destruct (find_timer j _); [|reflexivity].
      cbn in W. rewrite Nat.add_0_r in W. exact W.
    + injection E as <- E. cbn [run step] in R.
      set (wb := with_clock (clock wa + gap)%nat wa) in *.
      destruct pre as [|e3 pre].
      * cbn in R. injection R as <-. exact (typed_waiting w wa first _ gap T Hg).
      * assert (Hb : TimersOK wb) by (apply (TimersOK_frame wa); [reflexivity|apply T]).
        assert (Qb : q (page wb) <> None) by (cbn; discriminate).
        eapply (IH wb text Hb Qb G' (e3 :: pre) post); [exact E|discriminate|exact R].
Qed.

Lemma search_timers_same w w' :
  timers_of w' = timers_of w -> search_timers w' = search_timers w.
Proof. unfold timers_of, search_timers. intros E. injection E as -> _ _. reflexivity. Qed.

(** Once 300 ms have passed since the last keystroke the callback runs. *)
Lemma typed_settles w w1 text id ms :
  Typed w w1 text id -> (300 <= ms)%nat ->
  exists w2,
    run w1 [ETick ms; EFire id] = Some w2
    /\ query (state w2) = text
    /\ offset (state w2) = 0%Z /\ stories (state w2) = []
    /\ search_timers w2 = []
    /\ sent w2 =
         sent w ++ (if loading (state w) then []
                    else [GetStories (str_or (Some (category (state w))) "All")
                                     (str_or (Some text) "") (limit (state w)) 0]).
Proof.
  intros [Hst Hse Hn Hq Hf Ho Hok] Hms.
  set (wt := with_clock (clock w1 + ms)%nat w1).
  set (wc := clearTimeout (Some id) wt).
  set (ws := with_state (fun s => set_stories [] (set_offset 0 (set_query text s))) wc).
  exists (loadStories Detached ws). split.
  - cbn [run step]. fold wt.
    change (find_timer id wt) with (find_timer id w1). rewrite Hf. cbn [due search_timer].
    destruct (Nat.leb_spec (clock w1 + 300) (clock wt)) as [_|Hlt]; [|cbn in Hlt; lia].
    change (fire _ _) with (searchCallback wc). unfold searchCallback.
    change (q (page wc)) with (q (page w1)). rewrite Hq. reflexivity.
  - rewrite loadStories_state. cbn [query offset stories set_loading].
    split; [reflexivity|]. split; [reflexivity|]. split; [reflexivity|]. split.
    + rewrite (search_timers_same ws) by apply loadStories_timers.
      change (search_timers ws) with (search_timers wc). unfold wc.
      rewrite search_timers_clear.
      change (search_timers wt) with (search_timers w1). rewrite Ho. cbn.
      now rewrite Nat.eqb_refl.
    + assert (L : loading (state ws) = loading (state w)) by (cbn; now rewrite Hst).
      destruct (loading (state w)) eqn:Lw.
      * rewrite loadStories_busy by exact L. cbn. now rewrite Hse, app_nil_r.
      * destruct (loadStories_idle Detached ws L) as (S & _). rewrite S. cbn.
        now rewrite Hse, Hst.
Qed.

(** C7, as the code has it.  During a burst of keystrokes less than 300 ms
    apart no search callback can run; after the burst exactly one callback
    is pending, due 300 ms after the last keystroke, and the state, the
    requests sent and the requests in flight are as before the burst.  When
    it runs it puts the final text in [query], resets [offset], empties the
    list and calls [loadStories]: that sends exactly one request, for the
    final text at offset 0, if no page is loading, and none if one is. *)
Theorem C7_debounce (w : World) (first : string) (rest : list (nat * string)) :
  Reachable w -> q (page w) <> None ->
  Forall (fun g => (fst g < 300)%nat) rest ->
  (forall pre post w',
     keystrokes first rest = pre ++ post -> pre <> [] ->
     run w pre = Some w' -> search_cannot_fire w')
  /\ exists w1 id,
       run w (keystrokes first rest) = Some w1
       /\ state w1 = state w /\ sent w1 = sent w /\ net w1 = net w
       /\ search_timers w1 = [search_timer id (clock w1)]
       /\ (forall ms, (ms < 300)%nat -> run w1 [ETick ms; EFire id] = None)
       /\ (forall ms, (300 <= ms)%nat -> exists w2,
             run w1 [ETick ms; EFire id] = Some w2
             /\ query (state w2) = final_text first rest
             /\ offset (state w2) = 0%Z /\ stories (state w2) = []
             /\ search_timers w2 = []
             /\ sent w2 =
                  sent w ++
                  (if loading (state w) then []
                   else [GetStories (str_or (Some (category (state w))) "All")
                                    (str_or (Some (final_text first rest)) "")
                                    (limit (state w)) 0])).
Proof.
  intros R Q G. pose proof (reachable_timers w R) as H. split.
  - exact (typed_quiet w first rest H Q G).
  - destruct (typed_run w first rest H Q) as (w1 & id & Hr & T).
    exists w1, id. split; [exact Hr|].
    split; [apply T|]. split; [apply T|]. split; [apply T|]. split; [apply T|]. split.
    + intros ms Hms. cbn [run step].
      pose proof (typed_waiting w w1 _ id ms T Hms) as W.
      unfold search_cannot_fire in W.
      specialize (W id (search_timer id (clock w1))).
      change (find_timer id (with_clock (clock w1 + ms) w1)) with (find_timer id w1) in W.
      specialize (W (typed_find _ _ _ _ T) eq_refl). cbn [step] in W.
      destruct (find_timer id (with_clock (clock w1 + ms) w1)) as [t|]; [|reflexivity].
      destruct (due t <=? clock (with_clock (clock w1 + ms) w1))%nat;
        [discriminate|reflexivity].
    + intros ms Hms. exact (typed_settles w w1 _ id ms T Hms).
Qed.

Lemma C7_debounce_witness :
  exists w1,
    run (init (fresh page0)) (keystrokes "a" [(100%nat, "ab")]) = Some w1
    /\ state w1 = state (init (fresh page0)).
Proof.
  assert (Q : q (page (init (fresh page0))) <> None) by (cbn; discriminate).
  assert (G : Forall (fun g : nat * string => (fst g < 300)%nat) [(100%nat, "ab")]).
  { constructor; [cbn; lia|constructor]. }
  destruct (C7_debounce (init (fresh page0)) "a" [(100%nat, "ab")]
              (reach_init page0 arrives_page0) Q G)
    as [_ (w1 & id & Hr & Hs & _)].
  exists w1. split; [exact Hr|exact Hs].
Defined.

(** C7 as stated fails when a page is loading: the first page is in flight,
    the user types "a" and 300 ms pass.  The callback runs and changes the
    query, but no request leaves for it; the reply that then arrives, asked
    for with the empty query, fills the list. *)
Lemma C7_counterexample :
  exists w w',
    run (init (fresh page0)) (started ++ [EKey "a"; ETick 300; EFire 0%nat]) = Some w
    /\ query (state w) = "a"
    /\ search_timers w = []
    /\ sent w = [GetCategories; GetStories "All" "" 30 0]
    /\ step w (EReply 0%nat (ok_page 2 [story "A"; story "B"])) = Some w'
    /\ stories (state w') = [story "A"; story "B"]
    /\ sent w' = [GetCategories; GetStories "All" "" 30 0; GetMeta].
Proof.
  eexists. eexists. split; [vm_compute; reflexivity|].
  split; [vm_compute; reflexivity|]. split; [vm_compute; reflexivity|].
  split; [vm_compute; reflexivity|]. split; [vm_compute; reflexivity|].
  vm_compute. auto.
Qed.

(** C8, as the code has it.  The button is disabled exactly while a call of
    [refreshData] is under way: from the click to the end of the call,
    which on success comes after the reload and the meta update it awaits.
    A reply that is not a success (no reply, malformed or null body, [ok]
    false) shows the error toast and leaves the state alone.  A success
    resets [offset], empties the list and calls [loadStories]: page 0 is
    asked for when no page is loading, and the call is dropped when one is;
    the page that answers replaces the list; then the meta data are asked
    for, and when they arrive the success toast with the reply's counts is
    shown and the button is enabled.  A toast fades after 3000 ms and is
    removed 300 ms later. *)
Theorem C8_refresh (w : World) :
  Reachable w ->
  refreshes_in_flight w = (if btn_disabled w then 1%nat else 0%nat)
  /\ (forall b, refreshBtn (page w) = Some b ->
        btn_disabled (refreshData w) = true
        /\ sent (refreshData w) = sent w ++ [PostRefresh]
        /\ net (refreshData w) = net w ++ [PRefresh]
        /\ state (refreshData w) = state w)
  /\ (forall r, refresh_ok r = None ->
        state (refreshData_resume r w) = state w
        /\ sent (refreshData_resume r w) = sent w
        /\ net (refreshData_resume r w) = net w
        /\ btn_disabled (refreshData_resume r w) = false
        /\ toasts (page (refreshData_resume r w)) = [toast_of w TRefreshFailed TError]
        /\ In (fade_timer w) (timers (refreshData_resume r w)))
  /\ (forall r data, refresh_ok r = Some data ->
        offset (state (refreshData_resume r w)) = 0%Z
        /\ stories (state (refreshData_resume r w)) = []
        /\ refresh_view (refreshData_resume r w) = refresh_view w
        /\ (loading (state w) = false ->
              sent (refreshData_resume r w) =
                sent w ++ [GetStories (str_or (Some (category (state w))) "All")
                                      (str_or (Some (query (state w))) "")
                                      (limit (state w)) 0]
              /\ net (refreshData_resume r w) = net w ++ [PStories (RefreshK data)])
        /\ (loading (state w) = true ->
              sent (refreshData_resume r w) = sent w ++ [GetMeta]
              /\ net (refreshData_resume r w) = net w ++ [PMeta (RefreshK data)]))
  /\ (forall data total items,
        offset (state w) = 0%Z ->
        stories (state (loadStories_resume (RefreshK data) (page_reply total items) w))
          = items
        /\ sent (loadStories_resume (RefreshK data) (page_reply total items) w)
          = sent w ++ [GetMeta]
        /\ net (loadStories_resume (RefreshK data) (page_reply total items) w)
          = net w ++ [PMeta (RefreshK data)]
        /\ refresh_view (loadStories_resume (RefreshK data) (page_reply total items) w)
          = refresh_view w)
  /\ (forall data m,
        state (updateMeta_resume (RefreshK data) m w) = state w
        /\ btn_disabled (updateMeta_resume (RefreshK data) m w) = false
        /\ toasts (page (updateMeta_resume (RefreshK data) m w)) =
             [toast_of w (TAdded (r_added_articles data) (r_stories data)) TSuccess]
        /\ In (fade_timer w) (timers (updateMeta_resume (RefreshK data) m w)))
  /\ (forall id,
        In {| tid := next_timer w; due := (clock w + 300)%nat; tkind := TToastRemove id |}
           (timers (fire (TToastFade id) w))
        /\ forall t, In t (toasts (page (fire (TToastRemove id) w))) -> toast_id t <> id).
Proof.
  intros R. split; [exact (reachable_refresh w R)|]. split; [|split; [|split; [|split; [|split]]]].
  - intros b Hb. unfold refreshData, btn_disabled. rewrite Hb. cbn. auto.
  - intros r Hr. rewrite refreshData_resume_eq, Hr.
    unfold refresh_catch, btn_disabled. cbn.
    repeat split; try (apply in_or_app; right; now left).
    now destruct (refreshBtn (page w)).
  - intros r data Hr. rewrite refreshData_resume_eq, Hr.
    set (w0 := with_state (fun s => set_stories [] (set_offset 0 s)) w).
    rewrite loadStories_state, loadStories_view.
    split; [reflexivity|]. split; [reflexivity|]. split; [reflexivity|]. split; intros L.
    + destruct (loadStories_idle (RefreshK data) w0 L) as (Hs & Hn & _).
      split; [exact Hs|exact Hn].
    + rewrite loadStories_busy by exact L. cbn. auto.
  - intros data total items Ho.
    rewrite loadStories_resume_state, loadStories_resume_sent, loadStories_resume_net,
      loadStories_resume_view.
    cbn. rewrite Ho. cbn. auto.
  - intros data m. rewrite updateMeta_resume_state.
    unfold updateMeta_resume, after_meta, btn_disabled. cbn.
    repeat split; try (apply in_or_app; right; now left).
    destruct (fetchMeta m) as [|[|]]; cbn; now destruct (refreshBtn (page w)).
  - intros id. split.
    + cbn. apply in_or_app. right. now left.
    + cbn. intros t Ht. apply List.filter_In in Ht as [_ Ht].
      apply negb_true_iff, Nat.eqb_neq in Ht. exact Ht.
Qed.

Lemma C8_refresh_witness :
  refreshes_in_flight (init (fresh page0)) = 0%nat.
Proof.
  exact (proj1 (C8_refresh (init (fresh page0)) (reach_init page0 arrives_page0))).
Defined.

(** C8 as stated fails when a page is loading: the user asks for more and
    clicks Refresh before the page arrives.  The refresh succeeds and its
    toast is shown, but the reload is dropped: no request for offset 0
    leaves after the refresh, and the page asked for at offset 30, arriving
    last, becomes the list. *)
Lemma C8_counterexample :
  exists w,
    run (init (fresh page0))
        (started ++ [EReply 0%nat (ok_page 90 [story "A"; story "B"]);
                     EMore; ERefresh;
                     EReply 2%nat (refresh_reply 3 7);
                     EReply 2%nat (meta_reply "2024-01-01");
                     EReply 1%nat (ok_page 90 [story "C"; story "D"])]) = Some w
    /\ List.map toast_msg (toasts (page w)) = [TAdded (Some 3%Z) (Some 7%Z)]
    /\ btn_disabled w = false
    /\ offset (state w) = 0%Z
    /\ stories (state w) = [story "C"; story "D"]
    /\ sent w = [GetCategories; GetStories "All" "" 30 0; GetMeta;
                 GetStories "All" "" 30 30; PostRefresh; GetMeta].
Proof. eexists. split; [vm_compute; reflexivity|]. vm_compute. auto 10. Qed.

End AppProofs.

(** ** More about the story list page *)
Module AppMore.
Import App AppProofs.

Lemma loadStories_sent k w :
  sent (loadStories k w) =
    sent w ++ (if loading (state w)
               then match k with Detached => [] | _ => [GetMeta] end
               else [stories_request (state w)]).
Proof.
  unfold loadStories. destruct (loading (state w)); [|reflexivity].
  destruct k; cbn; auto using app_nil_r.
Qed.

Lemma loadStories_cats k w : cats (page (loadStories k w)) = cats (page w).
Proof.
  unfold loadStories. destruct (loading (state w)); [|reflexivity].
  now rewrite after_load_page.
Qed.

Lemma loadStories_more k w : more (page (loadStories k w)) = more (page w).
Proof.
  unfold loadStories. destruct (loading (state w)); [|reflexivity].
  now rewrite after_load_page.
Qed.

Lemma loadStories_resume_cats k r w :
  cats (page (loadStories_resume k r w)) = cats (page w).
Proof.
  unfold loadStories_resume. rewrite after_load_page.
  destruct (fetchStories r) as [e|[d|]]; reflexivity.
Qed.

(** *** Offsets and limits *)

Lemma Paged_frame w w' :
  limit (state w') = limit (state w) -> offset (state w') = offset (state w) ->
  sent w' = sent w -> Paged w -> Paged w'.
Proof. unfold Paged. now intros -> -> ->. Qed.

Lemma Paged_reset w w' :
  limit (state w') = limit (state w) -> offset (state w') = 0%Z ->
  sent w' = sent w -> Paged w -> Paged w'.
Proof.
  unfold Paged. intros -> -> ->. intros (L & _ & _ & S).
  repeat split; try assumption; try lia.
Qed.

Lemma Paged_loadStories k w : Paged w -> Paged (loadStories k w).
Proof.
  unfold Paged. intros (L & O & M & S).
  rewrite loadStories_state, loadStories_sent. cbn [limit offset set_loading].
  repeat split; try assumption.
  apply Forall_app. split; [exact S|].
  destruct (loading (state w)).
  - destruct k; repeat constructor.
  - constructor; [|constructor]. cbn. auto.
Qed.

Lemma Paged_loadStories_resume k r w : Paged w -> Paged (loadStories_resume k r w).
Proof.
  unfold Paged. intros (L & O & M & S).
  rewrite loadStories_resume_state, loadStories_resume_sent.
  assert (E : forall s0, limit (set_loading false s0) = limit s0
                         /\ offset (set_loading false s0) = offset s0) by (split; reflexivity).
  destruct (fetchStories r) as [e|[d|]]; cbn [limit offset set_loading merge_page
    set_hasMore set_stories]; repeat split; try assumption;
    (apply Forall_app; split; [exact S|destruct k; repeat constructor]).
Qed.

Lemma Paged_step w e w' : Paged w -> step w e = Some w' -> Paged w'.
Proof.
  intros B H. destruct e; cbn [step] in H; unfold deliver in H;
    repeat case_match; simplify_eq.
  - now apply (Paged_frame w).
  - now apply (Paged_frame w).
  - destruct (tkind _); cbn [fire].
    + unfold searchCallback. case_match; [|now apply (Paged_frame w)].
      apply Paged_loadStories. now apply (Paged_reset w).
    + now apply (Paged_frame w).
    + now apply (Paged_frame w).
  - apply Paged_loadStories. now apply (Paged_reset w).
  - unfold categoryClick. case_match; [assumption|].
    match goal with |- Paged (updateStatCategory ?x) =>
      apply (Paged_frame x); [reflexivity..|] end.
    apply Paged_loadStories. now apply (Paged_reset w).
  - apply Paged_loadStories. destruct B as (L & O & M & S).
    unfold Paged. cbn. rewrite L. repeat split; try assumption; try lia.
    rewrite <- Z.add_mod_idemp_l, M by lia. reflexivity.
  - apply Paged_loadStories. destruct B as (L & O & M & S).
    unfold Paged. cbn. rewrite L. repeat split; try assumption; try lia.
    rewrite <- Z.add_mod_idemp_l, M by lia. reflexivity.
  - unfold refreshData. case_match; [|assumption].
    destruct B as (L & O & M & S). unfold Paged. cbn. repeat split; try assumption.
    apply Forall_app. split; [exact S|repeat constructor].
  - now apply Paged_loadStories.
  - destruct (init_resume_eq r0 (with_net (delete n (net w)) w)) as [l ->].
    apply Paged_loadStories. now apply (Paged_frame w).
  - apply Paged_loadStories_resume. now apply (Paged_frame w).
  - apply (Paged_frame w); [now rewrite updateMeta_resume_state..| |assumption].
    unfold updateMeta_resume, after_meta. now destruct k.
  - rewrite refreshData_resume_eq. destruct (refresh_ok r0).
    + apply Paged_loadStories. now apply (Paged_reset w).
    + now apply (Paged_frame w).
Qed.

Lemma reachable_paged w : Reachable w -> Paged w.
Proof.
  induction 1 as [p _|w e w' _ IH H].
  - unfold Paged. cbn. repeat split; try lia. repeat constructor.
  - eapply Paged_step; eauto.
Qed.

(** *** The "load more" button *)

Lemma MoreOK_frame w w' :
  more (page w') = more (page w) -> hasMore (state w') = hasMore (state w) ->
  MoreOK w -> MoreOK w'.
Proof. unfold MoreOK. now intros -> ->. Qed.

Lemma MoreOK_loadStories k w : MoreOK w -> MoreOK (loadStories k w).
Proof.
  apply MoreOK_frame; [apply loadStories_more|now rewrite loadStories_state].
Qed.

Lemma MoreOK_loadStories_resume k r w : MoreOK w -> MoreOK (loadStories_resume k r w).
Proof.
  unfold MoreOK. rewrite loadStories_resume_state.
  unfold loadStories_resume. rewrite after_load_page.
  destruct (fetchStories r) as [e|[d|]]; cbn; try tauto.
  intros _. destruct (more (page w)); cbn; [|trivial].
  now destruct (_ <? _)%Z.
Qed.

Lemma MoreOK_step w e w' : MoreOK w -> step w e = Some w' -> MoreOK w'.
Proof.
  intros B H. destruct e; cbn [step] in H; unfold deliver in H;
    repeat case_match; simplify_eq.
  - now apply (MoreOK_frame w).
  - now apply (MoreOK_frame w).
  - destruct (tkind _); cbn [fire].
    + unfold searchCallback. case_match; [|now apply (MoreOK_frame w)].
      apply MoreOK_loadStories. now apply (MoreOK_frame w).
    + now apply (MoreOK_frame w).
    + now apply (MoreOK_frame w).
  - apply MoreOK_loadStories. now apply (MoreOK_frame w).
  - unfold categoryClick. case_match; [assumption|].
    match goal with |- MoreOK (updateStatCategory ?x) =>
      apply (MoreOK_frame x); [reflexivity..|] end.
    apply MoreOK_loadStories. now apply (MoreOK_frame w).
  - apply MoreOK_loadStories. now apply (MoreOK_frame w).
  - apply MoreOK_loadStories. now apply (MoreOK_frame w).
  - unfold refreshData. case_match; [|assumption]. now apply (MoreOK_frame w).
  - now apply MoreOK_loadStories.
  - destruct (init_resume_eq r0 (with_net (delete n (net w)) w)) as [l ->].
    apply MoreOK_loadStories. now apply (MoreOK_frame w).
  - apply MoreOK_loadStories_resume. now apply (MoreOK_frame w).
  - apply (MoreOK_frame w); [|now rewrite updateMeta_resume_state|assumption].
    unfold updateMeta_resume, after_meta.
    destruct k; cbn; now destruct (fetchMeta r0) as [|[|]].
  - rewrite refreshData_resume_eq. destruct (refresh_ok r0).
    + apply MoreOK_loadStories. now apply (MoreOK_frame w).
    + now apply (MoreOK_frame w).
Qed.

Lemma reachable_more w : Reachable w -> MoreOK w.
Proof.
  induction 1 as [p _|w e w' _ IH H].
  - unfold MoreOK. cbn. now destruct (more p) as [[]|].
  - eapply MoreOK_step; eauto.
Qed.

(** *** Toasts *)

Lemma OneToast_frame w w' :
  toasts (page w') = toasts (page w) -> OneToast w -> OneToast w'.
Proof. unfold OneToast. now intros ->. Qed.

Lemma OneToast_view w w' :
  refresh_view w' = refresh_view w -> OneToast w -> OneToast w'.
Proof.
  unfold refresh_view. intros E. injection E as _ E _. now apply OneToast_frame.
Qed.

Lemma OneToast_step w e w' : OneToast w -> step w e = Some w' -> OneToast w'.
Proof.
  intros B H. destruct e; cbn [step] in H; unfold deliver in H;
    repeat case_match; simplify_eq.
  - now apply (OneToast_frame w).
  - now apply (OneToast_frame w).
  - destruct (tkind _); cbn [fire].
    + unfold searchCallback. case_match; [|now apply (OneToast_frame w)].
      eapply OneToast_view; [apply loadStories_view|]. now apply (OneToast_frame w).
    + now apply (OneToast_frame w).
    + unfold OneToast in *. cbn.
      etransitivity; [apply List.filter_length_le|exact B].
  - eapply OneToast_view; [apply loadStories_view|]. now apply (OneToast_frame w).
  - unfold categoryClick. case_match; [assumption|].
    match goal with |- OneToast (updateStatCategory ?x) =>
      apply (OneToast_frame x); [reflexivity|] end.
    eapply OneToast_view; [apply loadStories_view|]. now apply (OneToast_frame w).
  - eapply OneToast_view; [apply loadStories_view|]. now apply (OneToast_frame w).
  - eapply OneToast_view; [apply loadStories_view|]. now apply (OneToast_frame w).
  - unfold refreshData. case_match; [|assumption]. now apply (OneToast_frame w).
  - eapply OneToast_view; [apply loadStories_view|]. assumption.
  - destruct (init_resume_eq r0 (with_net (delete n (net w)) w)) as [l ->].
    eapply OneToast_view; [apply loadStories_view|]. now apply (OneToast_frame w).
  - eapply OneToast_view; [apply loadStories_resume_view|]. now apply (OneToast_frame w).
  - unfold updateMeta_resume, after_meta. destruct k.
    + apply (OneToast_frame w); [|assumption]. cbn. now destruct (fetchMeta r0) as [|[|]].
    + apply (OneToast_frame w); [|assumption]. cbn. now destruct (fetchMeta r0) as [|[|]].
    + unfold OneToast. cbn. lia.
  - rewrite refreshData_resume_eq. destruct (refresh_ok r0).
    + eapply OneToast_view; [apply loadStories_view|]. now apply (OneToast_frame w).
    + unfold OneToast. cbn. lia.
Qed.

Lemma reachable_one_toast w : Reachable w -> OneToast w.
Proof.
  induction 1 as [p [Hp _]|w e w' _ IH H].
  - unfold OneToast. cbn. rewrite Hp. cbn. lia.
  - eapply OneToast_step; eauto.
Qed.

(** *** The category buttons *)

Lemma in_delete_other {A} (x p : A) (l : list A) n :
  l !! n = Some p -> p <> x -> In x l -> In x (delete n l).
Proof.
  revert n. induction l as [|a l IH]; intros [|n] L Hp I; cbn in *; try contradiction.
  - injection L as ->. destruct I as [->|I]; [congruence|exact I].
  - destruct I as [->|I]; [now left|right; eauto].
Qed.

Lemma loadStories_net_in x k w : In x (net w) -> In x (net (loadStories k w)).
Proof.
  intros I. rewrite loadStories_net. destruct (loading (state w)).
  - rewrite after_load_net. apply in_or_app. now left.
  - apply in_or_app. now left.
Qed.

Lemma CatsOK_frame w w' :
  (In PCategories (net w) -> In PCategories (net w')) ->
  cats (page w') = cats (page w) ->
  category (state w') = category (state w) ->
  categories (state w') = categories (state w) ->
  CatsOK w -> CatsOK w'.
Proof.
  unfold CatsOK, category_buttons. intros N -> -> -> [I|C]; [left; auto|now right].
Qed.

Lemma CatsOK_loadStories k w : CatsOK w -> CatsOK (loadStories k w).
Proof.
  apply CatsOK_frame.
  - apply loadStories_net_in.
  - apply loadStories_cats.
  - now rewrite loadStories_state.
  - now rewrite loadStories_state.
Qed.

Lemma CatsOK_loadStories_resume k r w : CatsOK w -> CatsOK (loadStories_resume k r w).
Proof.
  apply CatsOK_frame.
  - intros I. rewrite loadStories_resume_net. apply in_or_app. now left.
  - apply loadStories_resume_cats.
  - rewrite loadStories_resume_state. now destruct (fetchStories r) as [|[|]].
  - rewrite loadStories_resume_state. now destruct (fetchStories r) as [|[|]].
Qed.

(** Right after [renderCategories] the buttons are those of the state. *)
Lemma CatsOK_rendered k w : CatsOK (loadStories k (renderCategories w)).
Proof.
  right. rewrite loadStories_cats, loadStories_state. cbn.
  now destruct (cats (page w)).
Qed.

Lemma CatsOK_delivered w n p :
  net w !! n = Some p -> p <> PCategories -> CatsOK w ->
  CatsOK (with_net (delete n (net w)) w).
Proof.
  intros L Hp [I|C]; [left|now right]. cbn. eapply in_delete_other; eauto.
Qed.

Lemma CatsOK_step w e w' : CatsOK w -> step w e = Some w' -> CatsOK w'.
Proof.
  intros B H. destruct e; cbn [step] in H; unfold deliver in H;
    repeat case_match; simplify_eq.
  - now apply (CatsOK_frame w).
  - now apply (CatsOK_frame w).
  - destruct (tkind _); cbn [fire].
    + unfold searchCallback. case_match; [|now apply (CatsOK_frame w)].
      apply CatsOK_loadStories. now apply (CatsOK_frame w).
    + now apply (CatsOK_frame w).
    + now apply (CatsOK_frame w).
  - apply CatsOK_loadStories. now apply (CatsOK_frame w).
  - unfold categoryClick. case_match; [assumption|].
    match goal with |- CatsOK (updateStatCategory ?x) =>
      apply (CatsOK_frame x); [tauto|reflexivity..|] end.
    apply CatsOK_rendered.
  - apply CatsOK_loadStories. now apply (CatsOK_frame w).
  - apply CatsOK_loadStories. now apply (CatsOK_frame w).
  - unfold refreshData. case_match; [|assumption].
    apply (CatsOK_frame w); try reflexivity; [|assumption].
    cbn. intros I. apply in_or_app. now left.
  - now apply CatsOK_loadStories.
  - destruct (init_resume_eq r0 (with_net (delete n (net w)) w)) as [l ->].
    apply CatsOK_rendered.
  - apply CatsOK_loadStories_resume. eapply CatsOK_delivered; eauto; discriminate.
  - match goal with L : net w !! n = Some _ |- _ =>
      pose proof (CatsOK_delivered w n _ L ltac:(discriminate) B) as D end.
    revert D. apply CatsOK_frame.
    + now rewrite updateMeta_resume_net.
    + unfold updateMeta_resume, after_meta.
      destruct k; cbn; now destruct (fetchMeta r0) as [|[|]].
    + now rewrite updateMeta_resume_state.
    + now rewrite updateMeta_resume_state.
  - match goal with L : net w !! n = Some _ |- _ =>
      pose proof (CatsOK_delivered w n _ L ltac:(discriminate) B) as D end.
    rewrite refreshData_resume_eq. destruct (refresh_ok r0).
    + apply CatsOK_loadStories. revert D. now apply CatsOK_frame.
    + revert D. now apply CatsOK_frame.
Qed.

Lemma reachable_cats w : Reachable w -> CatsOK w.
Proof.
  induction 1 as [p _|w e w' _ IH H].
  - left. cbn. now left.
  - eapply CatsOK_step; eauto.
Qed.

(** *** Properties of the story list page *)

(** X1.  The "load more" button can only be clicked while [hasMore] is
    true: in every reachable world in which the click happens, [hasMore]
    holds.  This is the gate that [loadMore] itself does not have. *)
Theorem X1_more_click_needs_hasMore (w w' : World) :
  Reachable w -> step w EMore = Some w' -> hasMore (state w) = true.
Proof.
  intros R H. pose proof (reachable_more w R) as M. unfold MoreOK in M.
  cbn [step] in H. destruct (more (page w)) as [[]|]; try discriminate; exact M.
Qed.

Lemma X1_more_click_needs_hasMore_witness :
  hasMore (state (init (fresh page0))) = true.
Proof.
  exact (X1_more_click_needs_hasMore (init (fresh page0)) _
           (reach_init page0 arrives_page0) eq_refl).
Defined.

(** X2.  In every reachable world [limit] is 30 and [offset] is a multiple
    of 30 that is not negative, and every page request sent so far asked
    for 30 stories from such an offset. *)
Theorem X2_offsets_are_pages (w : World) :
  Reachable w ->
  limit (state w) = 30%Z
  /\ (exists n : nat, offset (state w) = (30 * Z.of_nat n)%Z)
  /\ forall c qy lim off,
       In (GetStories c qy lim off) (sent w) ->
       lim = 30%Z /\ exists n : nat, off = (30 * Z.of_nat n)%Z.
Proof.
  intros R. destruct (reachable_paged w R) as (L & O & M & S).
  assert (Mult : forall z, (0 <= z)%Z -> (z mod 30 = 0)%Z ->
                           exists n : nat, z = (30 * Z.of_nat n)%Z).
  { intros z Hz Hm. exists (Z.to_nat (z / 30)).
    rewrite Z2Nat.id by (apply Z.div_pos; lia).
    rewrite (Z.div_mod z 30) at 1 by lia. lia. }
  split; [exact L|]. split; [now apply Mult|].
  intros c qy lim off I. rewrite List.Forall_forall in S.
  destruct (S _ I) as (Hl & Ho & Hm). split; [exact Hl|now apply Mult].
Qed.

Lemma X2_offsets_are_pages_witness :
  limit (state (init (fresh page0))) = 30%Z.
Proof.
  exact (proj1 (X2_offsets_are_pages (init (fresh page0))
                  (reach_init page0 arrives_page0))).
Defined.

Lemma categoryClick_same w : categoryClick (category (state w)) w = w.
Proof. unfold categoryClick. now rewrite String.eqb_refl. Qed.

Lemma categoryClick_other w c :
  c <> category (state w) ->
  category (state (categoryClick c w)) = c
  /\ query (state (categoryClick c w)) = query (state w)
  /\ stories (state (categoryClick c w)) = []
  /\ offset (state (categoryClick c w)) = 0%Z
  /\ categories (state (categoryClick c w)) = categories (state w)
  /\ cats (page (categoryClick c w)) =
       put (List.map (fun x => (x, String.eqb x c)) (categories (state w)))
           (cats (page w))
  /\ statCat (page (categoryClick c w)) = put c (statCat (page w))
  /\ sent (categoryClick c w) =
       sent w ++ (if loading (state w) then []
                  else [GetStories (str_or (Some c) "All")
                                   (str_or (Some (query (state w))) "")
                                   (limit (state w)) 0])
  /\ loading (state (categoryClick c w)) = true.
Proof.
  intros Hc. apply String.eqb_neq in Hc. unfold categoryClick. rewrite Hc.
  set (w1 := with_state _ w).
  change (state (updateStatCategory ?x)) with (state x).
  change (sent (updateStatCategory ?x)) with (sent x).
  rewrite loadStories_state.
  split; [reflexivity|]. split; [reflexivity|]. split; [reflexivity|].
  split; [reflexivity|]. split; [reflexivity|]. split; [|split; [|split]].
  - change (cats (page (updateStatCategory ?x))) with (cats (page x)).
    now rewrite loadStories_cats.
  - cbn [updateStatCategory with_page page statCat set_statCat].
    rewrite loadStories_state.
    assert (E : statCat (page (loadStories Detached (renderCategories w1)))
                = statCat (page w)).
    { unfold loadStories. destruct (loading _); reflexivity. }
    now rewrite E.
  - rewrite loadStories_sent.
    change (loading (state (renderCategories w1))) with (loading (state w)).
    now destruct (loading (state w)).
  - reflexivity.
Qed.

(** For a bar written from names without markup characters, the value a
    click reads is one of the names. *)
Lemma reads_plain c l :
  Forall (fun b => plain (fst b) = true) l -> reads c l = true ->
  In c (List.map fst l).
Proof.
  intros P R. unfold reads in R. apply List.existsb_exists in R as (b & I & E).
  rewrite List.Forall_forall in P. rewrite (P b I) in E. cbn in E.
  rewrite orb_false_r in E. apply String.eqb_eq in E. subst c.
  now apply List.in_map.
Qed.

Lemma step_category w c w' :
  step w (ECategory c) = Some w' ->
  exists l, cats (page w) = Some l /\ reads c l = true /\ w' = categoryClick c w.
Proof.
  cbn [step]. destruct (cats (page w)) as [l|]; [|discriminate].
  destruct (reads c l) eqn:E; [|discriminate].
  intros H. injection H as <-. now exists l.
Qed.

(** X3.  Once the reply to the categories request has arrived, the bar is
    as [renderCategories] writes it for the state: one button per category,
    in order, with the name put into it and the class "active" exactly on
    the current category.  If no category name holds a markup character, a
    click on the bar reads one of these names, makes it the current
    category, and leaves the bar written again with exactly the button of
    that name active. *)
Theorem X3_category_buttons (w : World) (l : list (string * bool)) :
  Reachable w -> ~ In PCategories (net w) -> cats (page w) = Some l ->
  (List.map fst l = categories (state w)
   /\ forall c a, In (c, a) l -> (a = true <-> c = category (state w)))
  /\ (Forall (fun c => plain c = true) (categories (state w)) ->
      forall c w', step w (ECategory c) = Some w' ->
        In c (categories (state w))
        /\ category (state w') = c
        /\ exists l', cats (page w') = Some l'
             /\ List.map fst l' = categories (state w')
             /\ forall c', In (c', true) l' <-> c' = c).
Proof.
  intros R N C. destruct (reachable_cats w R) as [I|K]; [contradiction|].
  rewrite C in K. subst l.
  assert (M : forall s, List.map fst (category_buttons s) = categories s).
  { intros s. unfold category_buttons. rewrite List.map_map. cbn. apply List.map_id. }
  assert (A : forall cs cur c' a,
            In (c', a) (List.map (fun x => (x, String.eqb x cur)) cs) ->
            (a = true <-> c' = cur)).
  { intros cs cur c' a I. apply List.in_map_iff in I as (x & E & _).
    injection E as -> <-. split; [apply String.eqb_eq|intros ->; apply String.eqb_refl]. }
  split; [split; [apply M|apply A]|].
  intros P c w' S. apply step_category in S as (l & C' & Rd & ->).
  rewrite C in C'. injection C' as <-.
  assert (I : In c (categories (state w))).
  { rewrite <- M. apply reads_plain; [|exact Rd].
    unfold category_buttons. apply List.Forall_forall.
    intros b Ib. apply List.in_map_iff in Ib as (x & <- & Ix). cbn.
    rewrite List.Forall_forall in P. now apply P. }
  split; [exact I|].
  destruct (String.eqb_spec c (category (state w))) as [->|Hc].
  - rewrite categoryClick_same. split; [reflexivity|].
    exists (category_buttons (state w)). split; [exact C|]. split; [apply M|].
    intros c'. split.
    + intros I'. now apply (A _ _ _ _ I').
    + intros ->. unfold category_buttons. apply List.in_map_iff.
      exists (category (state w)). now rewrite String.eqb_refl.
  - destruct (categoryClick_other w c Hc) as (E1 & _ & _ & _ & E5 & E6 & _).
    split; [exact E1|]. rewrite E6, C, E5. cbn.
    eexists. split; [reflexivity|]. split.
    + rewrite List.map_map. cbn. apply List.map_id.
    + intros c'. split.
      * intros I'. now apply (A _ _ _ _ I').
      * intros ->. apply List.in_map_iff. exists c. now rewrite String.eqb_refl.
Qed.

Lemma X3_category_buttons_witness :
  exists w l,
    run (init (fresh page0)) started = Some w
    /\ cats (page w) = Some l
    /\ List.map fst l = categories (state w)
    /\ category (state (categoryClick "World" w)) = "World".
Proof.
  pose (W := loadStories InitK (renderCategories
            (with_state (set_categories ["All"; "World"])
               (with_net [] (init (fresh page0)))))).
  assert (R : Reachable W).
  { eapply run_reachable with (es := started);
      [exact (reach_init page0 arrives_page0)|reflexivity]. }
  assert (N : ~ In PCategories (net W)).
  { cbn. intros [H|[]]. discriminate H. }
  destruct (X3_category_buttons W [("All", true); ("World", false)] R N eq_refl)
    as [[M _] K].
  assert (P : Forall (fun c => plain c = true) (categories (state W))).
  { constructor; [reflexivity|]. constructor; [reflexivity|constructor]. }
  destruct (K P "World" (categoryClick "World" W) eq_refl) as (_ & E & _).
  exists W, [("All", true); ("World", false)].
  split; [reflexivity|]. split; [reflexivity|]. split; [exact M|exact E].
Defined.

(** X4.  At most one toast is on the page at any time: [showToast] removes
    the toasts that are there before it adds its own. *)
Theorem X4_one_toast (w : World) :
  Reachable w -> (length (toasts (page w)) <= 1)%nat.
Proof. exact (reachable_one_toast w). Qed.

Lemma X4_one_toast_witness :
  (length (toasts (page (init (fresh page0)))) <= 1)%nat.
Proof.
  exact (X4_one_toast (init (fresh page0)) (reach_init page0 arrives_page0)).
Defined.



(** X7.  [loading] cannot stay set for want of a reply to wait for: in
    every reachable world in which it is set, a page request is in flight,
    and whatever reply that request gets, [loading] is false afterwards. *)
Theorem X7_loading_is_released (w : World) :
  Reachable w -> loading (state w) = true ->
  exists n k,
    net w !! n = Some (PStories k)
    /\ forall r, exists w',
         step w (EReply n (RStories r)) = Some w' /\ loading (state w') = false.
Proof.
  intros R L. pose proof (reachable_balanced w R) as B.
  unfold Balanced, loads_in_flight in B. rewrite L in B.
  assert (E : exists n k, net w !! n = Some (PStories k)).
  { induction (net w) as [|p l IH]; cbn in B; [discriminate|].
    destruct p as [|k0|k0|].
    - destruct (IH B) as (n & k & H). now exists (S n), k.
    - now exists 0%nat, k0.
    - destruct (IH B) as (n & k & H). now exists (S n), k.
    - destruct (IH B) as (n & k & H). now exists (S n), k. }
  destruct E as (n & k & H). exists n, k. split; [exact H|].
  intros r. eexists. split.
  - cbn [step]. apply deliver_at. exact H.
  - now rewrite loadStories_resume_state.
Qed.

Lemma X7_loading_is_released_witness :
  exists w n k, run (init (fresh page0)) started = Some w
                /\ net w !! n = Some (PStories k).
Proof.
  eexists. 
  assert (R : Reachable (loadStories InitK (renderCategories
            (with_state (set_categories ["All"; "World"])
               (with_net [] (init (fresh page0))))))).
  { eapply run_reachable with (es := started);
      [exact (reach_init page0 arrives_page0)|reflexivity]. }
  destruct (X7_loading_is_released _ R eq_refl) as (n & k & H & _).
  exists n, k. split; [reflexivity|exact H].
Defined.

(** X8.  Whatever the three replies are (failures included), a page on
    which nothing else happens sends exactly the categories request, the
    request for the first page of "All" and the meta request, in this
    order, and ends with nothing in flight and [loading] cleared. *)
Theorem X8_start_up_requests (p : Page) rc rs rm :
  exists w,
    run (init (fresh p))
        [EReply 0%nat (RCategories rc); EReply 0%nat (RStories rs);
         EReply 0%nat (RMeta rm)] = Some w
    /\ sent w = [GetCategories; GetStories "All" "" 30 0; GetMeta]
    /\ net w = []
    /\ loading (state w) = false
    /\ fetchCategories rc = Return (categories (state w)).
Proof.
  destruct (fetchCategories_returns rc) as [l El].
  set (w0 := init (fresh p)).
  set (w1 := loadStories InitK (renderCategories
                (with_state (set_categories l) (with_net [] w0)))).
  set (w2 := loadStories_resume InitK rs (with_net [] w1)).
  set (w3 := updateMeta_resume InitK rm (with_net [] w2)).
  assert (S1 : step w0 (EReply 0%nat (RCategories rc)) = Some w1).
  { cbn. unfold init_resume. now rewrite El. }
  assert (S2 : step w1 (EReply 0%nat (RStories rs)) = Some w2).
  { cbn [step]. now apply (deliver_stories w1 [] InitK rs). }
  assert (N2 : net w2 = [PMeta InitK]).
  { unfold w2. now rewrite loadStories_resume_net. }
  assert (S3 : step w2 (EReply 0%nat (RMeta rm)) = Some w3).
  { cbn [step]. unfold deliver. now rewrite N2. }
  exists w3. split.
  - cbn [run]. now rewrite S1, S2, S3.
  - unfold w3. rewrite updateMeta_resume_state, updateMeta_resume_net.
    split.
    + change (sent (updateMeta_resume InitK rm ?x)) with (sent x).
      change (sent (with_net [] w2)) with (sent w2).
      unfold w2. now rewrite loadStories_resume_sent.
    + split; [reflexivity|]. change (state (with_net [] w2)) with (state w2).
      unfold w2. rewrite loadStories_resume_state. split; [reflexivity|].
      rewrite El. now destruct (fetchStories rs) as [|[|]].
Qed.

(** X9.  [updateMeta] never touches the state.  When the meta request
    fails (no reply, a status that is not 2xx, a body that is not JSON), or
    the reply has no time stamp, [#updatedText] says "Not updated yet" and
    [#statUpdated] shows the dash, also when a time was shown before.  A
    reply with a time stamp shows "Updated <time>" in the first and the
    bare time in the second.  A 2xx reply with the body [null] writes
    nothing. *)
Theorem X9_meta_text (k : Caller) (w : World) :
  (forall r, state (updateMeta_resume k r w) = state w)
  /\ (forall r, failed r = true ->
       updatedText (page (updateMeta_resume k r w)) = put MNotYet (updatedText (page w))
       /\ statUpdated (page (updateMeta_resume k r w)) = put MDash (statUpdated (page w)))
  /\ (forall stamp n a,
       let r := HttpResp true (JsonObj {| m_last_updated := stamp;
                                          m_stories := n; m_articles := a |}) in
       (stamp = None \/ stamp = Some "" ->
          updatedText (page (updateMeta_resume k r w)) = put MNotYet (updatedText (page w))
          /\ statUpdated (page (updateMeta_resume k r w)) = put MDash (statUpdated (page w)))
       /\ (forall t, stamp = Some t -> t <> "" ->
          updatedText (page (updateMeta_resume k r w)) = put (MUpdated t) (updatedText (page w))
          /\ statUpdated (page (updateMeta_resume k r w)) = put (MTime t) (statUpdated (page w))))
  /\ updatedText (page (updateMeta_resume k (HttpResp true JsonNull) w)) = updatedText (page w)
  /\ statUpdated (page (updateMeta_resume k (HttpResp true JsonNull) w)) = statUpdated (page w).
Proof.
  split; [intros r; apply updateMeta_resume_state|]. split; [|split].
  - intros r F.
    assert (E : fetchMeta r = Return (Some meta_fallback)).
    { destruct r as [|[] []]; cbn in *; try discriminate; reflexivity. }
    unfold updateMeta_resume, after_meta. destruct k; cbn; rewrite E; cbn; auto.
  - intros stamp n a r. subst r. split.
    + intros [->| ->]; unfold updateMeta_resume, after_meta; destruct k; cbn; auto.
    + intros t -> Ht. apply String.eqb_neq in Ht.
      unfold updateMeta_resume, after_meta. destruct k; cbn; rewrite Ht; cbn; auto.
  - unfold updateMeta_resume, after_meta. destruct k; cbn; auto.
Qed.

Lemma X9_meta_text_witness :
  statUpdated (page (updateMeta_resume InitK NetFail (init (fresh page0))))
  = Some MDash.
Proof.
  exact (proj2 (proj1 (proj2 (X9_meta_text InitK (init (fresh page0)))) NetFail eq_refl)).
Defined.

(** Once the categories have arrived and none of their names holds a
    markup character, a click on the bar runs the listener with one of
    them. *)
Lemma click_reads_category w c w' :
  Reachable w -> ~ In PCategories (net w) ->
  Forall (fun x => plain x = true) (categories (state w)) ->
  step w (ECategory c) = Some w' ->
  In c (categories (state w))
  /\ cats (page w) = Some (category_buttons (state w))
  /\ w' = categoryClick c w.
Proof.
  intros R N P S. apply step_category in S as (l & C & Rd & ->).
  destruct (reachable_cats w R) as [I|K]; [contradiction|].
  rewrite C in K. subst l. split; [|now split].
  assert (M : List.map fst (category_buttons (state w)) = categories (state w)).
  { unfold category_buttons. rewrite List.map_map. cbn. apply List.map_id. }
  rewrite <- M. apply reads_plain; [|exact Rd].
  unfold category_buttons. apply List.Forall_forall.
  intros b Ib. apply List.in_map_iff in Ib as (x & <- & Ix). cbn.
  rewrite List.Forall_forall in P. now apply P.
Qed.

(** X10.  Once the categories have arrived, and if none of their names
    holds a markup character, a click on the category bar reads the name of
    one of the categories.  If that is the current category nothing
    changes.  Otherwise it becomes the current category, the query is kept,
    the list is emptied, [offset] is reset, the bar is written again with
    the clicked name active and the category statistic shows it; if no page
    is loading exactly one request is sent, for that category ("All" if its
    name is empty), the current query and offset 0, and if one is loading
    no request is sent. *)
Theorem X10_category_click (w w' : World) (c : string) :
  Reachable w -> ~ In PCategories (net w) ->
  Forall (fun x => plain x = true) (categories (state w)) ->
  step w (ECategory c) = Some w' ->
  In c (categories (state w))
  /\ (c = category (state w) -> w' = w)
  /\ (c <> category (state w) ->
      category (state w') = c
      /\ query (state w') = query (state w)
      /\ stories (state w') = []
      /\ offset (state w') = 0%Z
      /\ cats (page w') =
           Some (List.map (fun x => (x, String.eqb x c)) (categories (state w)))
      /\ statCat (page w') = put c (statCat (page w))
      /\ loading (state w') = true
      /\ (loading (state w) = false ->
            sent w' = sent w ++ [GetStories (str_or (Some c) "All")
                                            (str_or (Some (query (state w))) "")
                                            (limit (state w)) 0])
      /\ (loading (state w) = true -> sent w' = sent w)).
Proof.
  intros R N P S.
  destruct (click_reads_category w c w' R N P S) as (I & C & ->).
  split; [exact I|]. split.
  - intros ->. apply categoryClick_same.
  - intros Hc.
    destruct (categoryClick_other w c Hc) as (E1 & E2 & E3 & E4 & _ & E6 & E7 & E8 & E9).
    rewrite E6, C. cbn.
    split; [exact E1|]. split; [exact E2|]. split; [exact E3|]. split; [exact E4|].
    split; [reflexivity|]. split; [exact E7|]. split; [exact E9|].
    split; intros L; rewrite E8, L; [reflexivity|apply app_nil_r].
Qed.

Lemma X10_category_click_witness :
  exists w, run (init (fresh page0)) started = Some w
            /\ category (state (categoryClick "World" w)) = "World".
Proof.
  pose (W := loadStories InitK (renderCategories
            (with_state (set_categories ["All"; "World"])
               (with_net [] (init (fresh page0)))))).
  assert (R : Reachable W).
  { eapply run_reachable with (es := started);
      [exact (reach_init page0 arrives_page0)|reflexivity]. }
  assert (N : ~ In PCategories (net W)).
  { cbn. intros [H|[]]. discriminate H. }
  assert (P : Forall (fun x => plain x = true) (categories (state W))).
  { constructor; [reflexivity|]. constructor; [reflexivity|constructor]. }
  destruct (X10_category_click W (categoryClick "World" W) "World" R N P eq_refl)
    as (_ & _ & K).
  assert (Hc : "World" <> category (state W)) by (cbn; discriminate).
  exists W. split; [reflexivity|exact (proj1 (K Hc))].
Defined.

Lemma run_app es1 es2 : forall w w1,
  run w es1 = Some w1 -> run w (es1 ++ es2) = run w1 es2.
Proof.
  induction es1 as [|e es1 IH]; cbn; intros w w1 H.
  - now injection H as ->.
  - destruct (step w e); [now apply IH|discriminate].
Qed.

Lemma loadStories_q k w : q (page (loadStories k w)) = q (page w).
Proof.
  unfold loadStories. destruct (loading (state w)); [|reflexivity].
  now rewrite after_load_page.
Qed.

Lemma loadStories_clock k w : clock (loadStories k w) = clock w.
Proof. unfold loadStories. destruct (loading (state w)); [now destruct k|reflexivity]. Qed.

Lemma clearSearch_timers w : timers_of (clearSearch w) = timers_of w.
Proof. unfold clearSearch. now rewrite loadStories_timers. Qed.

(** X6.  "Clear" empties the search box and the query, resets [offset],
    empties the list and calls [loadStories] (one request for the empty
    query at offset 0 if no page is loading, none otherwise).  It does not
    cancel a pending search callback: typed text followed by a click on
    "Clear" leaves the callback of the last keystroke pending, and when its
    300 ms are over it runs, reads the emptied box and resets the query,
    the offset and the list once more. *)
Theorem X6_clear_keeps_timer (w : World) (first : string) (rest : list (nat * string)) :
  Reachable w -> q (page w) <> None ->
  (query (state (clearSearch w)) = ""
   /\ offset (state (clearSearch w)) = 0%Z
   /\ stories (state (clearSearch w)) = []
   /\ q (page (clearSearch w)) = put "" (q (page w))
   /\ timers (clearSearch w) = timers w
   /\ sent (clearSearch w) =
        sent w ++ (if loading (state w) then []
                   else [GetStories (str_or (Some (category (state w))) "All") ""
                                    (limit (state w)) 0]))
  /\ exists w1 id,
       run w (keystrokes first rest ++ [EClear]) = Some w1
       /\ search_timers w1 = [search_timer id (clock w1)]
       /\ q (page w1) = Some ""
       /\ loading (state w1) = true
       /\ forall ms, (300 <= ms)%nat -> exists w2,
            run w1 [ETick ms; EFire id] = Some w2
            /\ query (state w2) = ""
            /\ offset (state w2) = 0%Z /\ stories (state w2) = []
            /\ sent w2 = sent w1.
Proof.
  intros R Q. split.
  - unfold clearSearch. rewrite loadStories_state, loadStories_sent.
    split; [reflexivity|]. split; [reflexivity|]. split; [reflexivity|]. split.
    + now rewrite loadStories_q.
    + split.
      * pose proof (clearSearch_timers w) as T. unfold clearSearch in T.
        unfold timers_of in T. now injection T.
      * cbn. now destruct (loading (state w)).
  - destruct (typed_run w first rest (reachable_timers w R) Q) as (wt & id & Hr & T).
    exists (clearSearch wt), id.
    assert (T1 : Typed (clearSearch wt) (clearSearch wt) "" id).
    { pose proof (clearSearch_timers wt) as E. unfold timers_of in E.
      injection E as Et En Es.
      assert (Eq : q (page (clearSearch wt)) = Some "").
      { unfold clearSearch. rewrite loadStories_q. cbn.
        now rewrite (typed_q _ _ _ _ T). }
      assert (Ec : clock (clearSearch wt) = clock wt).
      { unfold clearSearch. now rewrite loadStories_clock. }
      constructor; try reflexivity.
      - exact Eq.
      - unfold find_timer. rewrite Et, Ec. exact (typed_find _ _ _ _ T).
      - unfold search_timers. rewrite Et, Ec. exact (typed_only _ _ _ _ T).
      - apply (TimersOK_frame wt); [apply clearSearch_timers|apply T]. }
    split; [|split; [|split; [|split]]].
    + rewrite (run_app _ _ _ _ Hr). reflexivity.
    + apply T1.
    + apply T1.
    + unfold clearSearch. apply loadStories_loading.
    + intros ms Hms.
      destruct (typed_settles _ _ _ _ ms T1 Hms) as (w2 & H2 & Hq & Ho & Hs & _ & Hsent).
      exists w2. split; [exact H2|]. split; [exact Hq|]. split; [exact Ho|].
      split; [exact Hs|]. rewrite Hsent.
      unfold clearSearch at 2. rewrite loadStories_loading. apply app_nil_r.
Qed.

Lemma X6_clear_keeps_timer_witness :
  query (state (clearSearch (init (fresh page0)))) = "".
Proof.
  assert (Q : q (page (init (fresh page0))) <> None) by (cbn; discriminate).
  exact (proj1 (proj1 (X6_clear_keeps_timer (init (fresh page0)) "a" []
                         (reach_init page0 arrives_page0) Q))).
Defined.

Lemma in_flight_is_loading w n k :
  Reachable w -> net w !! n = Some (PStories k) -> loading (state w) = true.
Proof.
  intros R L. pose proof (reachable_balanced w R) as B.
  unfold Balanced, loads_in_flight in B. apply filter_load_delete in L.
  cbn [is_load] in L. destruct (loading (state w)); [reflexivity|lia].
Qed.

(** X11.  The "No stories found" message is never drawn by a load:
    [renderStories] only runs inside [loadStories], before the [finally],
    so [loading] is still set when it looks at it.  A page that arrives
    shows the cards of the list, none at all when the list is empty; any
    other reply that gets past [fetchStories] shows "Failed to load". *)
Theorem X11_empty_message_is_dead (w w' : World) (n : nat) (k : Caller)
    (r : Response PageData) :
  Reachable w -> net w !! n = Some (PStories k) ->
  step w (EReply n (RStories r)) = Some w' ->
  grid (page w') <> Some GNoStories
  /\ grid (page w') =
       match fetchStories r with
       | Return (Some _) => put (GCards (stories (state w'))) (grid (page w))
       | _ => put GFailed (grid (page w))
       end.
Proof.
  intros R L H. pose proof (in_flight_is_loading w n k R L) as Ld.
  cbn [step] in H. rewrite (deliver_at w n k r L) in H. injection H as <-.
  assert (E : grid (page (loadStories_resume k r (with_net (delete n (net w)) w))) =
       match fetchStories r with
       | Return (Some _) =>
           put (GCards (stories (state
                  (loadStories_resume k r (with_net (delete n (net w)) w)))))
               (grid (page w))
       | _ => put GFailed (grid (page w))
       end).
  { rewrite loadStories_resume_state. unfold loadStories_resume.
    rewrite after_load_page.
    destruct (fetchStories r) as [e|[d|]]; cbn; try reflexivity.
    now rewrite Ld, andb_false_r. }
  split; [|exact E]. rewrite E.
  destruct (fetchStories r) as [e|[d|]], (grid (page w)); cbn; congruence.
Qed.

Lemma X11_empty_message_is_dead_witness :
  exists w w',
    run (init (fresh page0)) started = Some w
    /\ step w (EReply 0%nat (ok_page 0 [])) = Some w'
    /\ grid (page w') = Some (GCards []).
Proof.
  pose (W := loadStories InitK (renderCategories
            (with_state (set_categories ["All"; "World"])
               (with_net [] (init (fresh page0)))))).
  assert (R : Reachable W).
  { eapply run_reachable with (es := started);
      [exact (reach_init page0 arrives_page0)|reflexivity]. }
  exists W. eexists. split; [reflexivity|]. split; [reflexivity|].
  exact (proj2 (X11_empty_message_is_dead W _ 0%nat InitK (page_reply 0 [])
                  R eq_refl eq_refl)).
Defined.

End AppMore.

(** ** The claims about the fetch functions, the blindspots and the theme *)

(** C5, as the code has it.  [fetchMeta], [fetchCategories] and
    [fetchStories] never reject: a failed request (network, status, body
    that is not JSON) gives their fallback value.  [fetchTrending] and
    [fetchBlindspots] have no [try]: a network failure or a body that is not
    JSON reaches their caller as a rejection, which the loader catches to
    show "Failed to load", clearing [loading]; so do [fetchStory] and
    [fetchTimeline], which also reject on a status that is not 2xx. *)
Theorem C5_fetch_boundary :
  (forall r, App.failed r = true ->
     App.fetchMeta r = Return (Some App.meta_fallback))
  /\ (forall r, App.failed r = true -> App.fetchCategories r = Return ["All"])
  /\ (forall r, App.failed r = true ->
     App.fetchStories r = Return (Some App.stories_fallback))
  /\ (forall r, exists m, App.fetchMeta r = Return m)
  /\ (forall r, exists l, App.fetchCategories r = Return l)
  /\ (forall r, exists d, App.fetchStories r = Return d)
  /\ (forall ok s,
        Trending.fetchTrending NetFail = Throw NetworkError
        /\ Trending.fetchTrending (HttpResp ok Malformed) = Throw ParseError
        /\ Trending.grid (Trending.loadTrending_resume NetFail s) = Trending.GFailed
        /\ Trending.grid (Trending.loadTrending_resume (HttpResp ok Malformed) s)
             = Trending.GFailed
        /\ Trending.topics (Trending.loadTrending_resume NetFail s) = Trending.topics s
        /\ Trending.loading (Trending.loadTrending_resume NetFail s) = false
        /\ Trending.loading (Trending.loadTrending_resume (HttpResp ok Malformed) s) = false)
  /\ (forall ok s,
        Blindspots.fetchBlindspots NetFail = Throw NetworkError
        /\ Blindspots.fetchBlindspots (HttpResp ok Malformed) = Throw ParseError
        /\ Blindspots.grid (Blindspots.loadBlindspots_resume NetFail s) = Blindspots.GFailed
        /\ Blindspots.grid (Blindspots.loadBlindspots_resume (HttpResp ok Malformed) s)
             = Blindspots.GFailed
        /\ Blindspots.blindspots (Blindspots.loadBlindspots_resume NetFail s)
             = Blindspots.blindspots s
        /\ Blindspots.loading (Blindspots.loadBlindspots_resume NetFail s) = false
        /\ Blindspots.loading (Blindspots.loadBlindspots_resume (HttpResp ok Malformed) s)
             = false)
  /\ (forall (A : Type) (b : Body A),
        Story.fetchStory (@NetFail A) = Throw NetworkError
        /\ Story.fetchStory (HttpResp false b) = Throw StatusError
        /\ Story.fetchStory (@HttpResp A true Malformed) = Throw ParseError
        /\ Story.fetchTimeline (@NetFail A) = Throw NetworkError
        /\ Story.fetchTimeline (HttpResp false b) = Throw StatusError
        /\ Story.fetchTimeline (@HttpResp A true Malformed) = Throw ParseError).
Proof.
  split; [|split; [|split; [|split; [|split; [|split; [|split; [|split]]]]]]].
  - intros r F. destruct r as [|[] []]; cbn in *; try discriminate; auto.
  - intros r F. destruct r as [|[] []]; cbn in *; try discriminate; auto.
  - intros r F. destruct r as [|[] []]; cbn in *; try discriminate; auto.
  - apply AppProofs.fetchMeta_returns.
  - apply AppProofs.fetchCategories_returns.
  - apply AppProofs.fetchStories_returns.
  - intros ok s. cbn. auto 10.
  - intros ok s. cbn. auto 10.
  - intros A b. cbn. auto 10.
Qed.

Lemma C5_fetch_boundary_witness :
  App.fetchStories NetFail = Return (Some App.stories_fallback).
Proof.
  exact (proj1 (proj2 (proj2 C5_fetch_boundary)) NetFail eq_refl).
Defined.

(** C5 as stated fails for the trending and blindspots pages: when the
    network fails, or the body is not JSON, the caller of [fetchTrending]
    or [fetchBlindspots] gets the rejection, not a fallback value. *)
Lemma C5_counterexample :
  Trending.fetchTrending NetFail = Throw NetworkError
  /\ Trending.fetchTrending (HttpResp true Malformed) = Throw ParseError
  /\ Blindspots.fetchBlindspots NetFail = Throw NetworkError
  /\ Blindspots.fetchBlindspots (HttpResp true Malformed) = Throw ParseError.
Proof. repeat split. Qed.

(** C9.  [renderBlindspots] returns exactly when every item has a [kind]:
    an item without [kind] makes it throw (a list of one such item does,
    whatever its other fields), and an item with a [kind] renders even when
    [bias_bar], [lean], [bias_score] and [title] are all missing. *)
Theorem C9_renderBlindspots_kind :
  (forall items loading,
     (exists g, Blindspots.renderBlindspots items loading = Return g)
     <-> Forall (fun item => kind item <> None) items)
  /\ (forall items loading,
     Blindspots.renderBlindspots items loading = Throw TypeError
     <-> Exists (fun item => kind item = None) items)
  /\ (forall id t cov l sc bar loading,
     Blindspots.renderBlindspots
       [ {| story_id := id; title := t; coverage := cov; lean := l;
            bias_score := sc; bias_bar := bar; kind := None |} ] loading
     = Throw TypeError)
  /\ (forall id cov k loading,
     Blindspots.renderBlindspots
       [ {| story_id := id; title := None; coverage := cov; lean := None;
            bias_score := None; bias_bar := None; kind := Some k |} ] loading
     = Return (Blindspots.GCards
         [ {| Blindspots.card_id := id;
              Blindspots.card_badge :=
                if Blindspots.includes k "Left" then Blindspots.BadgeLeft
                else Blindspots.BadgeRight;
              Blindspots.card_kind := k;
              Blindspots.card_title := "";
              Blindspots.card_coverage := cov;
              Blindspots.card_lean := "Unknown";
              Blindspots.card_score := 0%Q;
              Blindspots.card_segments := [] |} ])).
Proof.
  assert (Cards : forall items,
            match Blindspots.renderCards items with
            | Return _ => Forall (fun item => kind item <> None) items
            | Throw e => e = TypeError /\ Exists (fun item => kind item = None) items
            end).
  { induction items as [|item rest IH]; cbn; [constructor|].
    unfold Blindspots.renderCard. destruct (kind item) eqn:K.
    - destruct (Blindspots.renderCards rest).
      + destruct IH. split; [assumption|]. now apply Exists_cons_tl.
      + constructor; [congruence|assumption].
    - split; [reflexivity|]. now apply Exists_cons_hd. }
  assert (Excl : forall items, Forall (fun item : Item => kind item <> None) items ->
                               Exists (fun item : Item => kind item = None) items -> False).
  { intros items F E. rewrite List.Forall_forall in F. apply List.Exists_exists in E.
    destruct E as (x & I & K). exact (F x I K). }
  split; [|split; [|split]].
  - intros items loading. unfold Blindspots.renderBlindspots.
    destruct items as [|item rest].
    + split; [constructor|]. intros _. destruct loading; cbn; eauto.
    + cbn [length Nat.eqb andb]. specialize (Cards (item :: rest)).
      destruct (Blindspots.renderCards (item :: rest)).
      * split; [intros [g G]; discriminate|]. intros F. destruct Cards as [_ E].
        destruct (Excl _ F E).
      * split; [intros _; exact Cards|eauto].
  - intros items loading. unfold Blindspots.renderBlindspots.
    destruct items as [|item rest].
    + split; [destruct loading; cbn; discriminate|]. intros E. inversion E.
    + cbn [length Nat.eqb andb]. specialize (Cards (item :: rest)).
      destruct (Blindspots.renderCards (item :: rest)).
      * destruct Cards as [-> E]. split; auto.
      * split; [discriminate|]. intros E. destruct (Excl _ Cards E).
  - intros. reflexivity.
  - intros. reflexivity.
Qed.

(** C10.  The pages of app.js keep the theme under the key
    'openground-theme' and start "dark" when nothing is stored; the
    blindspots page keeps it under 'theme' and starts "light".  Each toggle
    writes its own key only, so a toggle on a page of one kind never changes
    the theme with which a page of the other kind starts, while a page of
    the same kind starts with the theme just chosen. *)
Theorem C10_theme_keys :
  (forall d k, k <> "openground-theme" ->
     Theme.storage (Theme.OpenGround.toggleTheme d) !! k = Theme.storage d !! k)
  /\ (forall d k, k <> "theme" ->
     Theme.storage (Theme.BlindspotsPage.toggleTheme d) !! k = Theme.storage d !! k)
  /\ (forall d, Theme.storage (Theme.OpenGround.initTheme d) = Theme.storage d)
  /\ (forall d, Theme.storage (Theme.BlindspotsPage.initTheme d) = Theme.storage d)
  /\ (forall d,
     Theme.data_theme (Theme.BlindspotsPage.initTheme
                         (Theme.navigate (Theme.OpenGround.toggleTheme d)))
     = Theme.data_theme (Theme.BlindspotsPage.initTheme (Theme.navigate d)))
  /\ (forall d,
     Theme.data_theme (Theme.OpenGround.initTheme
                         (Theme.navigate (Theme.BlindspotsPage.toggleTheme d)))
     = Theme.data_theme (Theme.OpenGround.initTheme (Theme.navigate d)))
  /\ (forall d,
     Theme.data_theme (Theme.OpenGround.initTheme
                         (Theme.navigate (Theme.OpenGround.toggleTheme d)))
     = Theme.data_theme (Theme.OpenGround.toggleTheme d))
  /\ (forall d,
     Theme.data_theme (Theme.BlindspotsPage.initTheme
                         (Theme.navigate (Theme.BlindspotsPage.toggleTheme d)))
     = Theme.data_theme (Theme.BlindspotsPage.toggleTheme d))
  /\ Theme.data_theme (Theme.OpenGround.initTheme (Theme.mkDoc ∅ None)) = Some "dark"
  /\ Theme.data_theme (Theme.BlindspotsPage.initTheme (Theme.mkDoc ∅ None)) = Some "light".
Proof.
  assert (Next : forall c, String.eqb (Theme.next_theme c) "" = false).
  { intros [c|]; cbn; [now destruct (String.eqb c "dark")|reflexivity]. }
  repeat split.
  - intros d k Hk. cbn. now rewrite lookup_insert_ne.
  - intros d k Hk. cbn. now rewrite lookup_insert_ne.
  - intros d. cbn. now rewrite lookup_insert_ne.
  - intros d. cbn. now rewrite lookup_insert_ne.
  - intros d. cbn. rewrite lookup_insert_eq. cbn. now rewrite Next.
  - intros d. cbn. rewrite lookup_insert_eq. cbn. now rewrite Next.
Qed.

Lemma C10_theme_keys_witness :
  Theme.storage (Theme.OpenGround.toggleTheme (Theme.mkDoc ∅ (Some "dark"))) !! "theme"
  = None.
Proof.
  rewrite (proj1 C10_theme_keys (Theme.mkDoc ∅ (Some "dark")) "theme");
    [reflexivity|discriminate].
Defined.

(** ** Relative times *)


(** ** The theme toggle *)

Lemma next_theme_other (cur : option string) :
  cur <> Some "dark" -> Theme.next_theme cur = "dark".
Proof.
  intros N. unfold Theme.next_theme. destruct cur as [c|]; [|reflexivity].
  destruct (String.eqb_spec c "dark") as [->|_]; [congruence|reflexivity].
Qed.

(** X13.  On either kind of page a toggle shows "light" when the theme
    was "dark" and "dark" in every other case (unset, "light", or any other
    value); it stores exactly the theme it shows, under the key of the
    page; a further toggle always changes the theme, and two toggles give
    back a theme that was "dark" or "light". *)
Theorem X13_theme_toggle (d : Theme.Doc) :
  let og := Theme.OpenGround.toggleTheme in
  let bs := Theme.BlindspotsPage.toggleTheme in
  (Theme.data_theme (og d) = Some "dark" \/ Theme.data_theme (og d) = Some "light")
  /\ Theme.storage (og d) !! "openground-theme" = Theme.data_theme (og d)
  /\ Theme.data_theme (og (og (og d))) = Theme.data_theme (og d)
  /\ Theme.data_theme (og (og d)) <> Theme.data_theme (og d)
  /\ (Theme.data_theme (bs d) = Some "dark" \/ Theme.data_theme (bs d) = Some "light")
  /\ Theme.storage (bs d) !! "theme" = Theme.data_theme (bs d)
  /\ Theme.data_theme (bs (bs (bs d))) = Theme.data_theme (bs d)
  /\ Theme.data_theme (bs (bs d)) <> Theme.data_theme (bs d)
  /\ (Theme.data_theme d = Some "dark" \/ Theme.data_theme d = Some "light" ->
      Theme.data_theme (og (og d)) = Theme.data_theme d
      /\ Theme.data_theme (bs (bs d)) = Theme.data_theme d)
  /\ (Theme.data_theme d = Some "dark" ->
      Theme.data_theme (og d) = Some "light" /\ Theme.data_theme (bs d) = Some "light")
  /\ (Theme.data_theme d <> Some "dark" ->
      Theme.data_theme (og d) = Some "dark" /\ Theme.data_theme (bs d) = Some "dark").
Proof.
  cbv zeta. unfold Theme.OpenGround.toggleTheme, Theme.BlindspotsPage.toggleTheme.
  cbn [Theme.storage Theme.data_theme]. rewrite !lookup_insert_eq.
  assert (N : Theme.next_theme (Theme.data_theme d) = "dark"
              \/ Theme.next_theme (Theme.data_theme d) = "light").
  { unfold Theme.next_theme. destruct (Theme.data_theme d) as [c|]; [|now left].
    destruct (String.eqb c "dark"); [now right|now left]. }
  repeat split.
  - destruct N as [-> | ->]; auto.
  - destruct N as [-> | ->]; reflexivity.
  - destruct N as [-> | ->]; cbn; discriminate.
  - destruct N as [-> | ->]; auto.
  - destruct N as [-> | ->]; reflexivity.
  - destruct N as [-> | ->]; cbn; discriminate.
  - destruct H as [-> | ->]; reflexivity.
  - destruct H as [-> | ->]; reflexivity.
  - now rewrite H.
  - now rewrite H.
  - f_equal. apply next_theme_other, H.
  - f_equal. apply next_theme_other, H.
Qed.

Lemma X13_theme_toggle_witness :
  Theme.data_theme (Theme.OpenGround.toggleTheme
                      (Theme.OpenGround.toggleTheme (Theme.mkDoc ∅ (Some "light"))))
  = Some "light".
Proof.
  destruct (X13_theme_toggle (Theme.mkDoc ∅ (Some "light")))
    as (_ & _ & _ & _ & _ & _ & _ & _ & H & _).
  destruct (H (or_intror eq_refl)) as [E _]. exact E.
Defined.

(** ** The blindspots page *)

Lemma renderCards_ok items :
  Forall (fun item => kind item <> None) items ->
  exists cs, Blindspots.renderCards items = Return cs
             /\ List.map Blindspots.card_id cs = List.map story_id items
             /\ List.map (fun c => Some (Blindspots.card_kind c)) cs = List.map kind items.
Proof.
  induction 1 as [|item rest Hk _ IH]; cbn; [eauto|].
  destruct IH as (cs & -> & Hi & Hkk). unfold Blindspots.renderCard.
  destruct (kind item) as [k|] eqn:K; [|congruence].
  eexists. split; [reflexivity|]. cbn. now rewrite Hi, Hkk.
Qed.

Lemma renderCards_throws items :
  Exists (fun item => kind item = None) items ->
  Blindspots.renderCards items = Throw TypeError.
Proof.
  induction 1 as [item rest K|item rest _ IH]; cbn; unfold Blindspots.renderCard.
  - now rewrite K.
  - destruct (kind item); [|reflexivity]. now rewrite IH.
Qed.

Lemma segments_positive item :
  Forall (fun sg => (0 < snd sg)%Q) (Blindspots.segments item)
  /\ (length (Blindspots.segments item) <= 4)%nat
  /\ (bias_bar item = None -> Blindspots.segments item = []).
Proof.
  unfold Blindspots.segments. split; [|split].
  - apply List.Forall_forall. intros sg I. apply List.filter_In in I as [_ P].
    unfold Blindspots.positive in P. now destruct (Qlt_le_dec 0 (snd sg)).
  - etransitivity; [apply List.filter_length_le|]. cbn. lia.
  - intros ->. reflexivity.
Qed.

(** X14.  The status of the reply is not looked at on the blindspots page:
    any reply with a JSON object body is taken as the list.  If every item
    has a [kind] the grid shows one card per item, in order; if some item
    has none the whole grid shows "Failed to load", although [blindspots]
    already holds the new items.  An empty list gives an empty grid, never
    the "No blindspots detected" message, and [loading] is cleared in every
    case. *)
Theorem X14_blindspots_load (s : Blindspots.State) (ok : bool)
    (items : list Item) (stamp : option string) :
  Blindspots.loading s = true ->
  let s' := Blindspots.loadBlindspots_resume
              (HttpResp ok (JsonObj {| Blindspots.b_items := Some items;
                                       Blindspots.b_last_updated := stamp |})) s in
  Blindspots.blindspots s' = items
  /\ Blindspots.loading s' = false
  /\ Blindspots.grid s' <> Blindspots.GNoBlindspots
  /\ (Forall (fun item => kind item <> None) items ->
        exists cs, Blindspots.grid s' = Blindspots.GCards cs
                   /\ List.map Blindspots.card_id cs = List.map story_id items)
  /\ (Exists (fun item => kind item = None) items ->
        Blindspots.grid s' = Blindspots.GFailed).
Proof.
  intros L s'. subst s'. unfold Blindspots.loadBlindspots_resume.
  cbn [Blindspots.fetchBlindspots list_or Blindspots.b_items Blindspots.blindspots
       Blindspots.loading].
  unfold Blindspots.renderBlindspots. rewrite L, andb_false_r.
  destruct (Blindspots.renderCards items) as [e|cs] eqn:E; cbn.
  - repeat split; try discriminate.
    intros F. destruct (renderCards_ok items F) as (cs & E' & _). congruence.
  - repeat split; try discriminate.
    + intros F. destruct (renderCards_ok items F) as (cs' & E' & Hi & _).
      exists cs. split; [reflexivity|]. congruence.
    + intros X. rewrite (renderCards_throws items X) in E. discriminate.
Qed.

Lemma X14_blindspots_load_witness :
  Blindspots.grid
    (Blindspots.loadBlindspots_resume
       (HttpResp false (JsonObj {| Blindspots.b_items := Some [];
                                   Blindspots.b_last_updated := None |}))
       {| Blindspots.blindspots := []; Blindspots.loading := true;
          Blindspots.grid := Blindspots.GSpinner; Blindspots.updatedText := None |})
  <> Blindspots.GNoBlindspots.
Proof.
  exact (proj1 (proj2 (proj2 (X14_blindspots_load
    {| Blindspots.blindspots := []; Blindspots.loading := true;
       Blindspots.grid := Blindspots.GSpinner; Blindspots.updatedText := None |}
    false [] None eq_refl)))).
Defined.

(** The segments of an item are its sides with a share above 0, in the
    order left, center, right, unknown, each with its share. *)
Lemma segments_share item :
  List.map fst (Blindspots.segments item) =
    List.filter (fun t => Blindspots.positive (Blindspots.share t item))
      [Blindspots.SLeft; Blindspots.SCenter; Blindspots.SRight; Blindspots.SUnknown]
  /\ forall t v, In (t, v) (Blindspots.segments item) -> v = Blindspots.share t item.
Proof.
  unfold Blindspots.segments, Blindspots.share.
  destruct (bias_bar item) as [b|]; [|split; [reflexivity|intros t v []]].
  cbn [List.filter snd].
  destruct (Blindspots.positive (Blindspots.num_or0 (bar_left b)));
  destruct (Blindspots.positive (Blindspots.num_or0 (bar_center b)));
  destruct (Blindspots.positive (Blindspots.num_or0 (bar_right b)));
  destruct (Blindspots.positive (Blindspots.num_or0 (bar_unknown b)));
  (split; [reflexivity|]); intros t v I; cbn [In] in I;
  repeat (destruct I as [I|I]; [now injection I as <- <-|]); destruct I.
Qed.

(** X15.  Every card that [renderBlindspots] draws comes from the item at
    the same place: same id, same kind, the left badge exactly when the
    kind contains "Left".  Its bias bar shows the sides of the item's
    [bias_bar] whose share is above 0, in the order left, center, right,
    unknown, each with the width of its share; a side with no share, or
    with a share of 0 or less, is not shown, and an item without
    [bias_bar] has an empty bar. *)
Theorem X15_blindspot_cards (items : list Item) (loading : bool)
    (cs : list Blindspots.Card) :
  Blindspots.renderBlindspots items loading = Return (Blindspots.GCards cs) ->
  length cs = length items
  /\ forall i c, cs !! i = Some c ->
       exists item k,
         items !! i = Some item /\ kind item = Some k
         /\ Blindspots.card_id c = story_id item
         /\ Blindspots.card_kind c = k
         /\ (Blindspots.card_badge c = Blindspots.BadgeLeft
               <-> Blindspots.includes k "Left" = true)
         /\ List.map fst (Blindspots.card_segments c) =
              List.filter (fun t => Blindspots.positive (Blindspots.share t item))
                [Blindspots.SLeft; Blindspots.SCenter;
                 Blindspots.SRight; Blindspots.SUnknown]
         /\ (forall t v, In (t, v) (Blindspots.card_segments c) ->
               v = Blindspots.share t item /\ (0 < v)%Q)
         /\ (bias_bar item = None -> Blindspots.card_segments c = []).
Proof.
  unfold Blindspots.renderBlindspots. intros H.
  assert (E : Blindspots.renderCards items = Return cs).
  { destruct (_ && _); [discriminate|].
    destruct (Blindspots.renderCards items); [discriminate|congruence]. }
  clear H. revert cs E. induction items as [|item rest IH]; intros cs E; cbn in E.
  - injection E as <-. split; [reflexivity|]. intros i c H. destruct i; discriminate.
  - unfold Blindspots.renderCard in E. destruct (kind item) as [k|] eqn:K; [|discriminate].
    destruct (Blindspots.renderCards rest) as [|cs'] eqn:R; [discriminate|].
    injection E as <-. destruct (IH cs' eq_refl) as [Hl Hc]. split; [cbn; now rewrite Hl|].
    intros [|i] c H; cbn in H.
    + injection H as <-. exists item, k. cbn.
      destruct (segments_positive item) as (P & _ & Z0).
      destruct (segments_share item) as (M & V).
      split; [reflexivity|]. split; [exact K|]. split; [reflexivity|].
      split; [reflexivity|]. split; [|split; [exact M|split; [|exact Z0]]].
      * split; [now destruct (Blindspots.includes k "Left")|intros ->; reflexivity].
      * intros t v I. split; [now apply V|].
        rewrite List.Forall_forall in P. exact (P _ I).
    + exact (Hc i c H).
Qed.

Lemma X15_blindspot_cards_witness :
  length [ {| Blindspots.card_id := "s1"; Blindspots.card_badge := Blindspots.BadgeLeft;
              Blindspots.card_kind := "Left Blindspot"; Blindspots.card_title := "";
              Blindspots.card_coverage := 2; Blindspots.card_lean := "Unknown";
              Blindspots.card_score := 0%Q; Blindspots.card_segments := [] |} ] = 1%nat.
Proof.
  exact (proj1 (X15_blindspot_cards
    [ {| story_id := "s1"; title := None; coverage := 2; lean := None;
         bias_score := None; bias_bar := None; kind := Some "Left Blindspot" |} ]
    false _ eq_refl)).
Defined.

(** ** The trending page *)

(** X16.  On the trending page a call of [loadTrending] sets [loading] and
    a call made while it is set is dropped; whatever the reply, [loading]
    is cleared and the grid never shows "No trending topics detected": the
    list is rendered while [loading] is still set.  The status of the reply
    is not looked at; a reply without topics gives an empty grid, and a
    rejection or a [null] body gives "Failed to load" and keeps the old
    topics. *)
Theorem X16_trending_load (s s1 : Trending.State) :
  Trending.loadTrending s = Some s1 ->
  Trending.loading s = false
  /\ Trending.loading s1 = true
  /\ Trending.loadTrending s1 = None
  /\ Trending.topics s1 = Trending.topics s
  /\ forall r,
       Trending.loading (Trending.loadTrending_resume r s1) = false
       /\ Trending.grid (Trending.loadTrending_resume r s1) <> Trending.GNoTopics
       /\ (forall ok d, r = HttpResp ok (JsonObj d) ->
             Trending.topics (Trending.loadTrending_resume r s1)
               = list_or (Trending.t_topics d) []
             /\ Trending.grid (Trending.loadTrending_resume r s1)
               = Trending.GCards (list_or (Trending.t_topics d) []))
       /\ ((forall ok d, r <> HttpResp ok (JsonObj d)) ->
             Trending.topics (Trending.loadTrending_resume r s1) = Trending.topics s
             /\ Trending.grid (Trending.loadTrending_resume r s1) = Trending.GFailed).
Proof.
  unfold Trending.loadTrending. destruct (Trending.loading s) eqn:L; [discriminate|].
  intros H. injection H as <-. cbn [Trending.loading Trending.topics].
  split; [reflexivity|]. split; [reflexivity|]. split; [reflexivity|].
  split; [reflexivity|]. intros r. split; [reflexivity|]. split; [|split].
  - destruct r as [|ok [| |d]]; cbn; rewrite ?andb_false_r; discriminate.
  - intros ok d ->. cbn. rewrite andb_false_r. auto.
  - intros H. destruct r as [|ok [| |d]]; cbn; auto. destruct (H ok d eq_refl).
Qed.

Lemma X16_trending_load_witness :
  Trending.loading
    {| Trending.topics := []; Trending.loading := false;
       Trending.grid := Trending.GSpinner; Trending.updatedText := None |} = false.
Proof.
  exact (proj1 (X16_trending_load
    {| Trending.topics := []; Trending.loading := false;
       Trending.grid := Trending.GSpinner; Trending.updatedText := None |}
    _ eq_refl)).
Defined.

Lemma cards_from_lookup (l : list Trending.Topic) : forall k i,
  TrendingCards.cards_from k l !! i = TrendingCards.card (k + i) <$> (l !! i).
Proof.
  induction l as [|t rest IH]; intros k i; [now destruct i|].
  destruct i as [|i]; cbn.
  - now rewrite Nat.add_0_r.
  - rewrite IH. now rewrite Nat.add_succ_r.
Qed.

(** X17.  [renderTrending] draws one card per topic, in order, ranked from
    1; only the first three carry a medal; the class and the label of the
    momentum always go together (hot with Surging, warm with Rising, cool
    with Steady, the last also when [velocity] is missing); and a card
    shows at most the first three sample headlines. *)
Theorem X17_trending_cards (l : list Trending.Topic) :
  length (TrendingCards.cards l) = length l
  /\ forall i c, TrendingCards.cards l !! i = Some c ->
       exists t, l !! i = Some t
         /\ TrendingCards.rank c = S i
         /\ TrendingCards.medal c = (if (i <? 3)%nat then Some (S i) else None)
         /\ ((TrendingCards.velocityClass c, TrendingCards.velocityLabel c) = ("hot", "Surging")
             \/ (TrendingCards.velocityClass c, TrendingCards.velocityLabel c) = ("warm", "Rising")
             \/ (TrendingCards.velocityClass c, TrendingCards.velocityLabel c) = ("cool", "Steady"))
         /\ (Trending.velocity t = None ->
               TrendingCards.velocityClass c = "cool")
         /\ TrendingCards.headlines c = firstn 3 (list_or (Trending.sample_headlines t) [])
         /\ (length (TrendingCards.headlines c) <= 3)%nat.
Proof.
  split.
  - unfold TrendingCards.cards. generalize 0%nat.
    induction l as [|t rest IH]; intros k; cbn; [reflexivity|]. now rewrite IH.
  - intros i c H. unfold TrendingCards.cards in H. rewrite cards_from_lookup in H.
    destruct (l !! i) as [t|]; [|discriminate]. cbn in H. injection H as <-.
    exists t. split; [reflexivity|]. split; [reflexivity|].
    assert (Hh : TrendingCards.headlines (TrendingCards.card i t)
                 = firstn 3 (list_or (Trending.sample_headlines t) [])).
    { cbn. destruct (Trending.sample_headlines t) as [[|h hs]|]; reflexivity. }
    split; [|split; [|split; [|split]]].
    + cbn. destruct i as [|[|[|i]]]; reflexivity.
    + cbn. destruct (TrendingCards.gt _ TrendingCards.half); [now left|].
      destruct (TrendingCards.gt _ TrendingCards.three_tenths); [right; now left|].
      right. now right.
    + intros V. cbn. rewrite V. reflexivity.
    + exact Hh.
    + rewrite Hh. apply List.firstn_le_length.
Qed.

Lemma X17_trending_cards_witness :
  length (TrendingCards.cards []) = 0%nat.
Proof. exact (proj1 (X17_trending_cards [])). Defined.

(** ** The story page *)

(** X18.  [renderCompare] shows the sides that have at least one article,
    in the order left, center, right, unknown, each with one entry per
    article; it never shows a side without articles, and it shows "No
    comparison data available" exactly when no side has any (also when
    [compare] is missing). *)
Theorem X18_compare_groups (c : StoryPage.Compare) :
  StoryPage.renderCompare None = StoryPage.NoComparison
  /\ (StoryPage.renderCompare (Some c) = StoryPage.NoComparison
      <-> forall b, StoryPage.filled c b = false)
  /\ forall gs, StoryPage.renderCompare (Some c) = StoryPage.Groups gs ->
       List.map fst gs =
         List.filter (StoryPage.filled c)
           [StoryPage.BLeft; StoryPage.BCenter; StoryPage.BRight; StoryPage.BUnknown]
       /\ forall b views, In (b, views) gs ->
            exists arts, StoryPage.bucket_of c b = Some arts
                         /\ arts <> []
                         /\ views = List.map StoryPage.renderArticle arts.
Proof.
  split; [reflexivity|].
  unfold StoryPage.renderCompare.
  set (all := [StoryPage.BLeft; StoryPage.BCenter; StoryPage.BRight; StoryPage.BUnknown]).
  set (f := fun b => (b, List.map StoryPage.renderArticle
                           (list_or (StoryPage.bucket_of c b) []))).
  assert (Hmap : List.map fst (List.map f (List.filter (StoryPage.filled c) all))
                 = List.filter (StoryPage.filled c) all).
  { rewrite List.map_map. apply List.map_id. }
  split.
  - destruct (List.map f (List.filter (StoryPage.filled c) all)) as [|g gs] eqn:E.
    + split; [|reflexivity]. intros _ b.
      apply (f_equal (@length _)) in E. rewrite List.length_map in E.
      destruct (StoryPage.filled c b) eqn:Fb; [|reflexivity].
      assert (I : In b (List.filter (StoryPage.filled c) all)).
      { apply List.filter_In. split; [|exact Fb]. destruct b; cbn; auto. }
      destruct (List.filter (StoryPage.filled c) all); [destruct I|discriminate].
    + split; [discriminate|]. intros H. exfalso.
      assert (I : In (fst g) (List.map fst (g :: gs))) by now left.
      rewrite Hmap in I.
      apply List.filter_In in I as [_ Fb]. rewrite H in Fb. discriminate.
  - intros gs H.
    assert (E : gs = List.map f (List.filter (StoryPage.filled c) all)).
    { destruct (List.map f (List.filter (StoryPage.filled c) all));
        [discriminate|congruence]. }
    subst gs. split; [exact Hmap|].
    intros b views I. apply List.in_map_iff in I as (b' & Eb & I).
    unfold f in Eb. injection Eb as -> <-.
    apply List.filter_In in I as [_ Fb]. unfold StoryPage.filled in Fb.
    destruct (StoryPage.bucket_of c b) as [arts|]; [|discriminate].
    exists arts. split; [reflexivity|]. split; [|reflexivity].
    intros ->. discriminate.
Qed.

(** X19.  The timeline is loaded on demand and without a guard: every
    switch to the timeline tab made while no timeline data are held sends a
    request, also when one is already in flight; once data are held no
    switch sends one, and a switch to another tab never does.  A failed
    request shows "Failed to load timeline" and holds no data, so the next
    switch to the tab asks again; without a story id nothing is ever
    sent. *)
Theorem X19_timeline_on_demand (s : StoryPage.State) :
  (forall tab, tab <> "timeline" ->
     StoryPage.requested (StoryPage.switchTab tab s) = StoryPage.requested s)
  /\ (forall t, StoryPage.timelineData s = Some t ->
     StoryPage.requested (StoryPage.switchTab "timeline" s) = StoryPage.requested s)
  /\ (StoryPage.truthy (StoryPage.storyId s) = None ->
     StoryPage.requested (StoryPage.switchTab "timeline" s) = StoryPage.requested s)
  /\ (StoryPage.timelineData s = None ->
      StoryPage.truthy (StoryPage.storyId s) <> None ->
      StoryPage.requested (StoryPage.switchTab "timeline" s)
        = S (StoryPage.requested s)
      /\ StoryPage.requested
           (StoryPage.switchTab "timeline" (StoryPage.switchTab "timeline" s))
        = S (S (StoryPage.requested s))
      /\ StoryPage.in_flight
           (StoryPage.switchTab "timeline" (StoryPage.switchTab "timeline" s))
        = S (S (StoryPage.in_flight s))
      /\ forall r, App.failed r = true ->
           let s1 := StoryPage.loadTimeline_resume r (StoryPage.switchTab "timeline" s) in
           StoryPage.timeline s1 = StoryPage.TFailed
           /\ StoryPage.timelineData s1 = None
           /\ StoryPage.requested (StoryPage.switchTab "timeline" s1)
              = S (S (StoryPage.requested s))).
Proof.
  unfold StoryPage.switchTab, StoryPage.loadTimeline.
  split; [|split; [|split]].
  - intros tab Ht. apply String.eqb_neq in Ht. now rewrite Ht.
  - intros t Ht. cbn. now rewrite Ht.
  - intros Hi. cbn. rewrite Hi. now destruct (StoryPage.timelineData s).
  - intros Hd Hi.
    destruct (StoryPage.truthy (StoryPage.storyId s)) as [i|] eqn:E; [|congruence].
    cbn. rewrite ?Hd, ?E. cbn. rewrite ?Hd, ?E. cbn.
    split; [reflexivity|]. split; [reflexivity|]. split; [reflexivity|].
    intros r F. unfold StoryPage.loadTimeline_resume, Story.fetchTimeline, Story.fetchStory.
    destruct r as [|[] []]; cbn in F; try discriminate; cbn; rewrite ?Hd, ?E; cbn; auto.
Qed.

Lemma X19_timeline_on_demand_witness :
  StoryPage.requested
    (StoryPage.switchTab "timeline"
       {| StoryPage.storyId := Some "s1"; StoryPage.timelineData := None;
          StoryPage.currentTab := "compare"; StoryPage.timeline := StoryPage.TInitial;
          StoryPage.requested := 0; StoryPage.in_flight := 0 |}) = 1%nat.
Proof.
  refine (proj1 (proj2 (proj2 (proj2 (X19_timeline_on_demand
    {| StoryPage.storyId := Some "s1"; StoryPage.timelineData := None;
       StoryPage.currentTab := "compare"; StoryPage.timeline := StoryPage.TInitial;
       StoryPage.requested := 0; StoryPage.in_flight := 0 |}))) eq_refl _)).
  cbn. discriminate.
Defined.




(** X21.  The story page shows 'Story not found' for every reply that is
    not a 2xx reply with a JSON object: no reply, a status that is not 2xx,
    a body that is not JSON, and the body [null]; only then are the panels
    not drawn.  Without a story id it shows 'Story ID missing' and sends
    nothing. *)
Theorem X21_story_not_found (r : Response StoryPage.StoryData) (s : StoryPage.State) :
  (fst (StoryPage.init_resume r) = StoryPage.TitleNotFound
     <-> forall d, r <> HttpResp true (JsonObj d))
  /\ (snd (StoryPage.init_resume r) = None
     <-> forall d, r <> HttpResp true (JsonObj d))
  /\ (forall d, r = HttpResp true (JsonObj d) ->
     StoryPage.init_resume r =
       (StoryPage.TitleOf (StoryPage.s_title d),
        Some (StoryPage.renderCompare (StoryPage.s_compare d),
              StoryPage.renderAll (StoryPage.s_articles d))))
  /\ (StoryPage.truthy (StoryPage.storyId s) = None ->
     StoryPage.init s = (StoryPage.TitleMissingId, false))
  /\ (StoryPage.truthy (StoryPage.storyId s) <> None ->
     StoryPage.init s = (StoryPage.TitleInitial, true)).
Proof.
  unfold StoryPage.init_resume, StoryPage.init, Story.fetchStory.
  split; [|split; [|split; [|split]]].
  - destruct r as [|[] [| |d]]; cbn; split; intros H; try congruence; try discriminate.
    destruct (H d eq_refl).
  - destruct r as [|[] [| |d]]; cbn; split; intros H; try congruence; try discriminate.
    destruct (H d eq_refl).
  - intros d ->. reflexivity.
  - intros ->. reflexivity.
  - intros H. destruct (StoryPage.truthy _); [reflexivity|congruence].
Qed.

Lemma X21_story_not_found_witness :
  StoryPage.init_resume (HttpResp true (JsonObj (StoryPage.mkStory (Some "t") None None)))
  = (StoryPage.TitleOf (Some "t"),
     Some (StoryPage.NoComparison, StoryPage.NoArticles)).
Proof.
  exact (proj1 (proj2 (proj2 (X21_story_not_found
    (HttpResp true (JsonObj (StoryPage.mkStory (Some "t") None None)))
    (StoryPage.mkState None None "compare" StoryPage.TInitial 0 0)))) _ eq_refl).
Defined.
